(** * ToggleTown Go SDK: flag evaluation, rollout bucketing and catalog refresh

    A shallow embedding of the evaluator ([hashString], [isInRollout],
    [matchesRule], [toFloat], [getOffValue], [evaluateFlag]), of the typed
    accessors of the client ([GetBooleanFlag] ... [GetJSONFlag]) and of the
    background refresh ([fetchFlags], [checkStaleness]), followed by the
    properties the specification states about them.

    Conventions.
    - A Go [string] is a sequence of bytes; it is a [string] here, whose
      characters are 8-bit [ascii] codes.
    - Go's [int] and [int64] are [Z]; [uint32] is [Z] reduced modulo 2^32.
    - [float64] is the kernel's binary64 [float].
    - [interface{}] is the tagged union [Any].
    - [map[string]T] is [gmap string T]. *)

From Stdlib Require Import ZArith Lia List Ascii String PrimFloat Uint63 SpecFloat FloatOps
  FloatAxioms.
From stdpp Require Import base strings gmap list sorting pretty.

#[local] Set Warnings "-register-all".
#[local] Open Scope string_scope.
#[local] Open Scope Z_scope.

(** ** crypto/sha256

    [Sum256] of Go's standard library, written out after FIPS 180-4: bytes are
    integers in [0, 256), words are integers in [0, 2^32). *)

Module SHA256.

Definition u32 (x : Z) : Z := x mod 2 ^ 32.

Definition rotr (n x : Z) : Z :=
  Z.lor (Z.shiftr x n) (u32 (Z.shiftl x (32 - n))).

Definition Ch (x y z : Z) : Z :=
  Z.lxor (Z.land x y) (Z.land (Z.lnot x) z).

Definition Maj (x y z : Z) : Z :=
  Z.lxor (Z.lxor (Z.land x y) (Z.land x z)) (Z.land y z).

Definition bigSigma0 (x : Z) : Z :=
  Z.lxor (Z.lxor (rotr 2 x) (rotr 13 x)) (rotr 22 x).

Definition bigSigma1 (x : Z) : Z :=
  Z.lxor (Z.lxor (rotr 6 x) (rotr 11 x)) (rotr 25 x).

Definition smallSigma0 (x : Z) : Z :=
  Z.lxor (Z.lxor (rotr 7 x) (rotr 18 x)) (Z.shiftr x 3).

Definition smallSigma1 (x : Z) : Z :=
  Z.lxor (Z.lxor (rotr 17 x) (rotr 19 x)) (Z.shiftr x 10).

(** The integer part of the [k]-th root of [n], found bit by bit from bit
    [bits - 1] down. *)
Fixpoint root (k : Z) (n : Z) (bits : nat) (r : Z) : Z :=
  match bits with
  | O => r
  | S bits' =>
      let r' := r + 2 ^ Z.of_nat bits' in
      root k n bits' (if r' ^ k <=? n then r' else r)
  end.

Definition is_prime (n : Z) : bool :=
  forallb (fun d => negb (n mod Z.of_nat d =? 0)) (seq 2 (Z.to_nat n - 2)).

(** The first 64 primes: 2, 3, 5, ..., 311. *)
Definition primes : list Z :=
  List.filter is_prime (map Z.of_nat (seq 2 310)).

(** The first 32 bits of the fractional part of the [k]-th root of [p]. *)
Definition fraction_of_root (k : Z) (p : Z) : Z :=
  u32 (root k (p * 2 ^ (32 * k)) 40 0).

(** The round constants: from the cube roots of the first 64 primes. *)
Definition K : list Z := map (fraction_of_root 3) primes.

(** The eight working variables, also the chaining value between blocks. *)
Record state := State {
  sa : Z; sb : Z; sc : Z; sd : Z; se : Z; sf : Z; sg : Z; sh : Z
}.

(** The initial hash value: from the square roots of the first 8 primes. *)
Definition init : state :=
  match map (fraction_of_root 2) (firstn 8 primes) with
  | [a; b; c; d; e; f; g; h] => State a b c d e f g h
  | _ => State 0 0 0 0 0 0 0 0
  end.

(** Big-endian word of four bytes, and back. *)
Definition word_of_bytes (bs : list Z) : Z :=
  fold_left (fun acc b => acc * 256 + b) bs 0.

Definition bytes_of_word (w : Z) : list Z :=
  [ (w / 2 ^ 24) mod 256; (w / 2 ^ 16) mod 256; (w / 2 ^ 8) mod 256; w mod 256 ].

(** Message padding: a 1 bit, zeros up to 56 modulo 64, then the bit length
    on eight bytes. *)
Definition pad (msg : list Z) : list Z :=
  let len := Z.of_nat (length msg) in
  let zeros := Z.to_nat ((55 - len) mod 64) in
  let bits := 8 * len in
  msg ++ [0x80] ++ repeat 0 zeros
      ++ bytes_of_word ((bits / 2 ^ 32) mod 2 ^ 32) ++ bytes_of_word (bits mod 2 ^ 32).

(** The first sixteen words of the schedule are the block itself. *)
Fixpoint block_words (n : nat) (block : list Z) : list Z :=
  match n with
  | O => []
  | S n' => word_of_bytes (firstn 4 block) :: block_words n' (skipn 4 block)
  end.

(** [extend n w] appends [n] further words to the schedule [w], which is
    kept most recent first. *)
Fixpoint extend (n : nat) (w : list Z) : list Z :=
  match n with
  | O => w
  | S n' =>
      let next := u32 (smallSigma1 (nth 1 w 0) + nth 6 w 0
                       + smallSigma0 (nth 14 w 0) + nth 15 w 0) in
      extend n' (next :: w)
  end.

Definition schedule (block : list Z) : list Z :=
  rev (extend 48 (rev (block_words 16 block))).

Definition round (s : state) (kw : Z * Z) : state :=
  let t1 := u32 (sh s + bigSigma1 (se s) + Ch (se s) (sf s) (sg s) + fst kw + snd kw) in
  let t2 := u32 (bigSigma0 (sa s) + Maj (sa s) (sb s) (sc s)) in
  State (u32 (t1 + t2)) (sa s) (sb s) (sc s) (u32 (sd s + t1)) (se s) (sf s) (sg s).

Definition compress (s : state) (block : list Z) : state :=
  let r := fold_left round (combine K (schedule block)) s in
  State (u32 (sa s + sa r)) (u32 (sb s + sb r)) (u32 (sc s + sc r)) (u32 (sd s + sd r))
        (u32 (se s + se r)) (u32 (sf s + sf r)) (u32 (sg s + sg r)) (u32 (sh s + sh r)).

(** One block of 64 bytes per step; [fuel] bounds the number of blocks. *)
Fixpoint blocks (fuel : nat) (s : state) (bytes : list Z) : state :=
  match fuel, bytes with
  | S fuel', _ :: _ => blocks fuel' (compress s (firstn 64 bytes)) (skipn 64 bytes)
  | _, _ => s
  end.

Definition digest (s : state) : list Z :=
  bytes_of_word (sa s) ++ bytes_of_word (sb s) ++ bytes_of_word (sc s)
    ++ bytes_of_word (sd s) ++ bytes_of_word (se s) ++ bytes_of_word (sf s)
    ++ bytes_of_word (sg s) ++ bytes_of_word (sh s).

(** [sha256.Sum256]: the 32 bytes of the digest. *)
Definition Sum256 (data : list Z) : list Z :=
  let padded := pad data in
  digest (blocks (length padded) init padded).

End SHA256.

(** ** evaluator.go: rollout bucketing *)

(** [[]byte(input)]: the bytes of a string. *)
Definition bytes_of_string (s : string) : list Z :=
  map (fun c => Z.of_N (N_of_ascii c)) (list_ascii_of_string s).

Definition uint32 (x : Z) : Z := x mod 2 ^ 32.

(** hashString hashes a string to a number between 0-99 for rollout
    bucketing. *)
Definition hashString (input : string) : Z :=
  let h := SHA256.Sum256 (bytes_of_string input) in
  let num :=
    Z.lor (Z.lor (Z.lor (uint32 (Z.shiftl (uint32 (nth 0 h 0)) 24))
                        (uint32 (Z.shiftl (uint32 (nth 1 h 0)) 16)))
                 (uint32 (Z.shiftl (uint32 (nth 2 h 0)) 8)))
          (uint32 (nth 3 h 0)) in
  num mod 100.

(** [fmt.Sprintf("%s:%s", userID, flagKey)]. *)
Definition rolloutKey (userID flagKey : string) : string :=
  userID +:+ ":" +:+ flagKey.

(** isInRollout checks if a user is in the rollout percentage. *)
Definition isInRollout (userID flagKey : string) (percentage : Z) : bool :=
  if percentage =? 0 then false
  else if 100 <=? percentage then true
  else
    let bucket := hashString (rolloutKey userID flagKey) in
    bucket <? percentage.

(** ** Dynamic values

    What an [interface{}] holds, by dynamic type: the types the code tests
    for by name, and [VOther] for a value of any other type, which the code
    only ever renders with [%v]. A [float32] is carried as the [float64] it
    converts to. *)
Inductive Any :=
  | VNil
  | VBool (b : bool)
  | VString (s : string)
  | VFloat64 (f : float)
  | VFloat32 (f : float)
  | VInt (n : Z)
  | VInt64 (n : Z)
  | VSlice (items : list Any)
  | VMap (entries : gmap string Any)
  | VOther (rendering : string).

(** Conversions between floating-point numbers and text, from [fmt] and
    [strconv]; the evaluator is written against this interface.
    [ParseFloat] stands for [f, _ := strconv.ParseFloat(val, 64)]: the value
    returned, the error dropped. *)
Class FloatText := {
  formatFloat64 : float -> string;
  formatFloat32 : float -> string;
  ParseFloat : string -> float
}.

(** [float64(val)] for an [int] or [int64]. *)
Definition float64_of_int (n : Z) : float :=
  if n =? - 2 ^ 63 then (-9223372036854775808)%float
  else if n <? 0 then PrimFloat.opp (PrimFloat.of_uint63 (Uint63.of_Z (- n)))
  else PrimFloat.of_uint63 (Uint63.of_Z n).

Definition key_le (p q : string * string) : Prop := String.leb p.1 q.1 = true.

#[local] Instance key_le_dec p q : Decision (key_le p q).
Proof. unfold key_le. apply _. Defined.

(** [fmt.Sprintf("%v", v)]; a map is printed with its keys sorted. *)
Fixpoint Sprintv `{FloatText} (v : Any) : string :=
  match v with
  | VNil => "<nil>"
  | VBool b => if b then "true" else "false"
  | VString s => s
  | VFloat64 f => formatFloat64 f
  | VFloat32 f => formatFloat32 f
  | VInt n => pretty n
  | VInt64 n => pretty n
  | VSlice items => "[" +:+ String.concat " " (map Sprintv items) +:+ "]"
  | VMap entries =>
      let rendered := map_fold (fun k x acc => (k, Sprintv x) :: acc) [] entries in
      "map[" +:+ String.concat " "
                   (map (fun kv => kv.1 +:+ ":" +:+ kv.2) (merge_sort key_le rendered))
             +:+ "]"
  | VOther rendering => rendering
  end.

(** [strings.Contains(s, substr)]. *)
Fixpoint Contains (s substr : string) : bool :=
  String.prefix substr s ||
  match s with
  | EmptyString => false
  | String _ s' => Contains s' substr
  end.

(** ** evaluator.go: rules and flags *)

(** Rule represents a targeting rule. [Percentage] is a [*int]. *)
Record Rule := {
  Attribute : string;
  Operator : string;
  Value : Any;
  Percentage : option Z;
  RollValue : Any
}.

(** FlagConfig represents a flag configuration from the API. *)
Record FlagConfig := {
  Key : string;
  Type_ : string;
  Enabled : bool;
  DefaultValue : Any;
  Rules : list Rule;
  RolloutPercentage : Z
}.

Definition isNil (v : Any) : bool :=
  match v with VNil => true | _ => false end.

Section Evaluator.
Context `{FloatText}.

(** toFloat converts various types to float64. *)
Definition toFloat (v : Any) : float :=
  match v with
  | VFloat64 val => val
  | VFloat32 val => val
  | VInt val => float64_of_int val
  | VInt64 val => float64_of_int val
  | VString val => ParseFloat val
  | _ => 0%float
  end.

(** The [switch operator] of matchesRule, once the attribute value is
    known. *)
Definition matchesOperator (operator : string) (attrValue ruleValue : Any) : bool :=
  if String.eqb operator "equals" then
    String.eqb (Sprintv attrValue) (Sprintv ruleValue)
  else if String.eqb operator "not_equals" then
    negb (String.eqb (Sprintv attrValue) (Sprintv ruleValue))
  else if String.eqb operator "contains" then
    match attrValue, ruleValue with
    | VString attrStr, VString ruleStr => Contains attrStr ruleStr
    | _, _ => false
    end
  else if String.eqb operator "not_contains" then
    match attrValue, ruleValue with
    | VString attrStr, VString ruleStr => negb (Contains attrStr ruleStr)
    | _, _ => false
    end
  else if String.eqb operator "gt" then
    let attrFloat := toFloat attrValue in
    let ruleFloat := toFloat ruleValue in
    PrimFloat.ltb ruleFloat attrFloat
  else if String.eqb operator "lt" then
    let attrFloat := toFloat attrValue in
    let ruleFloat := toFloat ruleValue in
    PrimFloat.ltb attrFloat ruleFloat
  else if String.eqb operator "in" then
    match ruleValue with
    | VSlice list =>
        existsb (fun item => String.eqb (Sprintv attrValue) (Sprintv item)) list
    | _ => false
    end
  else if String.eqb operator "not_in" then
    match ruleValue with
    | VSlice list =>
        negb (existsb (fun item => String.eqb (Sprintv attrValue) (Sprintv item)) list)
    | _ => true
    end
  else if String.eqb operator "always" then true
  else false.

(** matchesRule checks if context matches a targeting rule. *)
Definition matchesRule (rule : Rule) (context : gmap string Any) : bool :=
  let attribute := Attribute rule in
  let operator := Operator rule in
  let ruleValue := Value rule in
  match context !! attribute with
  | Some attrValue => matchesOperator operator attrValue ruleValue
  | None =>
      match context !! "attributes" with
      | Some (VMap attrs) =>
          match attrs !! attribute with
          | Some attrValue => matchesOperator operator attrValue ruleValue
          | None => false
          end
      | _ => false
      end
  end.

(** getOffValue returns the "off" value for a flag type. *)
Definition getOffValue (flagType : string) : Any :=
  if String.eqb flagType "BOOLEAN" then VBool false
  else if String.eqb flagType "STRING" then VString EmptyString
  else if String.eqb flagType "NUMBER" then VFloat64 0%float
  else if String.eqb flagType "JSON" then VNil
  else VNil.

(** The [for _, rule := range config.Rules] loop of evaluateFlag: [Some v]
    when an iteration returns [v], [None] when the loop runs to its end. *)
Fixpoint rulesLoop (config : FlagConfig) (context : gmap string Any)
    (userID : string) (rules : list Rule) : option Any :=
  match rules with
  | [] => None
  | rule :: rest =>
      if negb (matchesRule rule context) then rulesLoop config context userID rest
      else if
        match Percentage rule with
        | Some percentage =>
            (percentage <? 100)
            && (String.eqb userID EmptyString
                || negb (isInRollout userID (Key config) percentage))
        | None => false
        end
      then rulesLoop config context userID rest
      else if negb (isNil (RollValue rule)) then Some (RollValue rule)
      else Some (DefaultValue config)
  end.

(** The user id read from the context: [user_id], else [userId], when the
    entry is a string. *)
Definition contextUserID (context : gmap string Any) : string :=
  match context !! "user_id" with
  | Some (VString id) => id
  | _ =>
      match context !! "userId" with
      | Some (VString id) => id
      | _ => EmptyString
      end
  end.

(** evaluateFlag evaluates a flag for a given context. *)
Definition evaluateFlag (config : FlagConfig) (context : gmap string Any) : Any :=
  if negb (Enabled config) then DefaultValue config
  else
    let userID := contextUserID context in
    match rulesLoop config context userID (Rules config) with
    | Some value => value
    | None =>
        if (0 <? RolloutPercentage config) && negb (String.eqb userID EmptyString) then
          if isInRollout userID (Key config) (RolloutPercentage config)
          then DefaultValue config
          else getOffValue (Type_ config)
        else DefaultValue config
    end.

End Evaluator.

(** ** client.go: the client and its typed accessors *)

(** What the callbacks of a client were called with, oldest first. *)
Inductive Event :=
  | OnError (err : string)
  | OnStale (lastUpdatedAt age : Z).

(** What one [GET /api/v1/sdk/flags] comes back with: [http.NewRequest]
    fails, [httpClient.Do] fails, or a response arrives, with its status
    code, the text of its body and what decoding that body as a
    [FlagsResponse] gives. An [error] is its message. *)
Inductive DecodeResult :=
  | DecodeFails (err : string)
  | Decoded (Flags : gmap string FlagConfig).

Inductive Reply :=
  | NewRequestFails (err : string)
  | DoFails (err : string)
  | Response (StatusCode : Z) (body : string) (decode : DecodeResult).

Definition StatusOK : Z := 200.

(** Client is the ToggleTown feature flag client. [onError] tells whether a
    callback is configured; a call of it is recorded as an [Event]. *)
Record Client := {
  onError : bool;
  flags : gmap string FlagConfig;
  initialized : bool
}.

Definition fetchFlagsInitial (c : Client) (reply : Reply) : Client * option string :=
  match reply with
  | NewRequestFails err => (c, Some ("failed to create request: " +:+ err))
  | DoFails err => (c, Some ("failed to fetch flags: " +:+ err))
  | Response StatusCode body decode =>
      if negb (StatusCode =? StatusOK) then
        (c, Some ("API returned status " +:+ pretty StatusCode +:+ ": " +:+ body))
      else
        match decode with
        | DecodeFails err => (c, Some ("failed to decode response: " +:+ err))
        | Decoded Flags =>
            ({| onError := onError c; flags := Flags; initialized := initialized c |}, None)
        end
  end.

Definition fetchFlags (c : Client) (reply : Reply) : Client * list Event :=
  match reply with
  | NewRequestFails err => (c, if onError c then [OnError err] else [])
  | DoFails err => (c, if onError c then [OnError err] else [])
  | Response StatusCode body decode =>
      if negb (StatusCode =? StatusOK) then
        (c, if onError c
            then [OnError ("API returned status " +:+ pretty StatusCode +:+ ": " +:+ body)]
            else [])
      else
        match decode with
        | DecodeFails err => (c, if onError c then [OnError err] else [])
        | Decoded Flags =>
            ({| onError := onError c; flags := Flags; initialized := initialized c |}, [])
        end
  end.

(** Initialize fetches flags and starts background polling. *)
Definition Initialize (c : Client) (reply : Reply) : Client * option string :=
  if initialized c then (c, None)
  else
    match fetchFlagsInitial c reply with
    | (c', Some err) => (c', Some err)
    | (c', None) => ({| onError := onError c'; flags := flags c'; initialized := true |}, None)
    end.

(** The loop of startPolling: one [fetchFlags] per tick, until the stop
    channel is closed; [replies] are the replies to the ticks served. *)
Fixpoint polling (c : Client) (replies : list Reply) : Client * list Event :=
  match replies with
  | [] => (c, [])
  | reply :: rest =>
      let '(c1, events1) := fetchFlags c reply in
      let '(c2, events2) := polling c1 rest in
      (c2, (events1 ++ events2)%list)
  end.

Definition getFlagConfig (c : Client) (key : string) : option FlagConfig :=
  flags c !! key.

Section Accessors.
Context `{FloatText}.

(** GetBooleanFlag returns a boolean flag value. *)
Definition GetBooleanFlag (c : Client) (key : string) (defaultValue : bool)
    (context : gmap string Any) : bool :=
  match getFlagConfig c key with
  | None => defaultValue
  | Some config =>
      match evaluateFlag config context with
      | VBool v => v
      | _ => defaultValue
      end
  end.

(** GetStringFlag returns a string flag value. *)
Definition GetStringFlag (c : Client) (key : string) (defaultValue : string)
    (context : gmap string Any) : string :=
  match getFlagConfig c key with
  | None => defaultValue
  | Some config =>
      match evaluateFlag config context with
      | VString v => v
      | _ => defaultValue
      end
  end.

(** GetNumberFlag returns a number flag value. *)
Definition GetNumberFlag (c : Client) (key : string) (defaultValue : float)
    (context : gmap string Any) : float :=
  match getFlagConfig c key with
  | None => defaultValue
  | Some config =>
      match evaluateFlag config context with
      | VFloat64 v => v
      | VFloat32 v => v
      | VInt v => float64_of_int v
      | VInt64 v => float64_of_int v
      | _ => defaultValue
      end
  end.

(** GetJSONFlag returns a JSON flag value. *)
Definition GetJSONFlag (c : Client) (key : string) (defaultValue : Any)
    (context : gmap string Any) : Any :=
  match getFlagConfig c key with
  | None => defaultValue
  | Some config =>
      let value := evaluateFlag config context in
      if negb (isNil value) then value else defaultValue
  end.

End Accessors.

(** ** client.go with staleness tracking

    The revision of client.go that records when the catalog was last fetched
    ([lastUpdatedAt], [staleFired], [checkStaleness]); its text follows that
    of README.md. It differs from the client above by the fields and
    functions below; its accessors are those above. Times and durations are
    integers (nanoseconds); [lastUpdatedAt] is [None] for the zero
    [time.Time]. Each refresh reads the clock once, in [time.Now()] or in
    [time.Since(c.lastUpdatedAt)]: [now] is that reading. *)
Module Staleness.

Record Client := {
  onError : bool;
  onStale : bool;
  maxStaleAge : Z;
  flags : gmap string FlagConfig;
  initialized : bool;
  lastUpdatedAt : option Z;
  staleFired : bool
}.

Definition refreshed (c : Client) (Flags : gmap string FlagConfig) (now : Z) : Client :=
  {| onError := onError c; onStale := onStale c; maxStaleAge := maxStaleAge c;
     flags := Flags; initialized := initialized c;
     lastUpdatedAt := Some now; staleFired := false |}.

Definition checkStaleness (c : Client) (now : Z) : Client * list Event :=
  match lastUpdatedAt c with
  | None => (c, [])
  | Some updated =>
      let age := now - updated in
      if (maxStaleAge c <? age) && negb (staleFired c) then
        ({| onError := onError c; onStale := onStale c; maxStaleAge := maxStaleAge c;
            flags := flags c; initialized := initialized c;
            lastUpdatedAt := lastUpdatedAt c; staleFired := true |},
         if onStale c then [OnStale updated age] else [])
      else (c, [])
  end.

Definition fetchFlagsInitial (c : Client) (now : Z) (reply : Reply) : Client * option string :=
  match reply with
  | NewRequestFails err => (c, Some ("failed to create request: " +:+ err))
  | DoFails err => (c, Some ("failed to fetch flags: " +:+ err))
  | Response StatusCode body decode =>
      if negb (StatusCode =? StatusOK) then
        (c, Some ("API returned status " +:+ pretty StatusCode +:+ ": " +:+ body))
      else
        match decode with
        | DecodeFails err => (c, Some ("failed to decode response: " +:+ err))
        | Decoded Flags => (refreshed c Flags now, None)
        end
  end.

(** [failed c now err]: the common tail of the failing branches of
    fetchFlags, [c.onError(err)] when configured, then [c.checkStaleness()]. *)
Definition failed (c : Client) (now : Z) (err : string) : Client * list Event :=
  let reported := if onError c then [OnError err] else [] in
  let '(c', alarm) := checkStaleness c now in
  (c', (reported ++ alarm)%list).

Definition fetchFlags (c : Client) (now : Z) (reply : Reply) : Client * list Event :=
  match reply with
  | NewRequestFails err => failed c now err
  | DoFails err => failed c now err
  | Response StatusCode body decode =>
      if negb (StatusCode =? StatusOK) then
        failed c now ("API returned status " +:+ pretty StatusCode +:+ ": " +:+ body)
      else
        match decode with
        | DecodeFails err => failed c now err
        | Decoded Flags => (refreshed c Flags now, [])
        end
  end.

(** IsStale returns whether cached flags are stale. *)
Definition IsStale (c : Client) (now : Z) : bool :=
  match lastUpdatedAt c with
  | None => false
  | Some updated => maxStaleAge c <? now - updated
  end.

(** The loop of startPolling, each tick with its clock reading and reply. *)
Fixpoint polling (c : Client) (ticks : list (Z * Reply)) : Client * list Event :=
  match ticks with
  | [] => (c, [])
  | (now, reply) :: rest =>
      let '(c1, events1) := fetchFlags c now reply in
      let '(c2, events2) := polling c1 rest in
      (c2, (events1 ++ events2)%list)
  end.

End Staleness.

(** ** Float text for integers

    An instance of [FloatText] to run the evaluator on concrete inputs. It
    follows Go on the integers of magnitude below 10^6, which [%v] prints in
    plain decimal, and on decimal integer numerals below 2^53; on a string
    that is no number [ParseFloat] is 0, as in Go. Other arguments are left
    to the real [fmt] and [strconv]: the theorems below hold for every
    instance. *)
Module IntegerText.

Definition integral (f : float) : option Z :=
  match Prim2SF f with
  | S754_zero _ => Some 0
  | S754_finite s m e =>
      let magnitude :=
        if 0 <=? e then Some (Z.pos m * 2 ^ e)
        else if Z.pos m mod 2 ^ (- e) =? 0 then Some (Z.pos m / 2 ^ (- e))
        else None in
      (fun z : Z => if s then - z else z) <$> magnitude
  | _ => None
  end.

Definition format (f : float) : string :=
  match Prim2SF f with
  | S754_zero true => "-0"
  | S754_infinity false => "+Inf"
  | S754_infinity true => "-Inf"
  | S754_nan => "NaN"
  | _ =>
      match integral f with
      | Some z => if Z.abs z <? 10 ^ 6 then pretty z else EmptyString
      | None => EmptyString
      end
  end.

Fixpoint digits (acc : Z) (s : string) : option Z :=
  match s with
  | EmptyString => Some acc
  | String c s' =>
      let d := Z.of_N (N_of_ascii c) - 48 in
      if (0 <=? d) && (d <=? 9) then digits (10 * acc + d) s' else None
  end.

Definition numeral (s : string) : option Z :=
  match s with
  | EmptyString => None
  | String "-" (String _ _ as s') => Z.opp <$> digits 0 s'
  | String "+" (String _ _ as s') => digits 0 s'
  | _ => digits 0 s
  end.

Definition parse (s : string) : float :=
  match numeral s with
  | Some z => if Z.abs z <? 2 ^ 53 then float64_of_int z else 0%float
  | None => 0%float
  end.

#[export] Instance text : FloatText :=
  {| formatFloat64 := format; formatFloat32 := format; ParseFloat := parse |}.

End IntegerText.

(** ** The specification's vocabulary *)

(** A sequence of bytes read as a big-endian unsigned integer. *)
Definition big_endian (bs : list Z) : Z :=
  fold_left (fun acc b => acc * 256 + b) bs 0.

(** The bucket of a user for a flag, in the specification's words: the
    first 4 bytes of the SHA-256 digest of the bytes of "{userId}:{flagKey}",
    big-endian, modulo 100. *)
Definition bucket_spec (userId flagKey : string) : Z :=
  big_endian (firstn 4 (SHA256.Sum256 (bytes_of_string (userId +:+ ":" +:+ flagKey))))
    mod 100.

(** Attribute lookup in the specification's words: [context[attribute]],
    else [context["attributes"][attribute]], else absent. *)
Definition lookupAttribute (context : gmap string Any) (attribute : string) : option Any :=
  match context !! attribute with
  | Some v => Some v
  | None =>
      match context !! "attributes" with
      | Some (VMap nested) => nested !! attribute
      | _ => None
      end
  end.

(** A configuration with other rules. *)
Definition withRules (config : FlagConfig) (rules : list Rule) : FlagConfig :=
  {| Key := Key config; Type_ := Type_ config; Enabled := Enabled config;
     DefaultValue := DefaultValue config; Rules := rules;
     RolloutPercentage := RolloutPercentage config |}.

(** A rule qualifies when the matcher accepts it and, if it carries a
    percentage strictly less than 100, the user id is non-empty and in that
    rollout. *)
Definition qualifies `{FloatText} (config : FlagConfig) (context : gmap string Any)
    (rule : Rule) : bool :=
  matchesRule rule context &&
  match Percentage rule with
  | Some percentage =>
      if percentage <? 100 then
        negb (String.eqb (contextUserID context) EmptyString)
        && isInRollout (contextUserID context) (Key config) percentage
      else true
  | None => true
  end.

(** The outcome of a qualifying rule: its rollValue if present, else the
    flag's defaultValue. *)
Definition ruleOutcome (config : FlagConfig) (rule : Rule) : Any :=
  match RollValue rule with
  | VNil => DefaultValue config
  | v => v
  end.

(** The flag types, and the values of each type. *)
Inductive FlagType := BOOLEAN | STRING | NUMBER | JSON.

Definition hasType (t : FlagType) (v : Any) : bool :=
  match t, v with
  | BOOLEAN, VBool _ => true
  | STRING, VString _ => true
  | NUMBER, (VFloat64 _ | VFloat32 _ | VInt _ | VInt64 _) => true
  | JSON, (VSlice _ | VMap _) => true
  | _, _ => false
  end.

(** A refresh fails with an error: a request error, a status that is not
    200 (so every non-2xx status), or a body that does not decode. *)
Inductive RefreshFails : Reply -> string -> Prop :=
  | request_not_created err : RefreshFails (NewRequestFails err) err
  | request_not_answered err : RefreshFails (DoFails err) err
  | status_not_ok status body decode :
      status <> 200 ->
      RefreshFails (Response status body decode)
        ("API returned status " +:+ pretty status +:+ ": " +:+ body)
  | body_not_decoded body err :
      RefreshFails (Response 200 body (DecodeFails err)) err.

(** A fully successful fetch: status 200 and a body that decodes. *)
Definition refreshSucceeds (reply : Reply) : bool :=
  match reply with
  | Response status _ (Decoded _) => status =? 200
  | _ => false
  end.

Definition isOnStale (e : Event) : bool :=
  match e with OnStale _ _ => true | OnError _ => false end.

(** The calls of the stale callback among the events. *)
Definition staleCalls (events : list Event) : list Event := List.filter isOnStale events.

(** A byte is an integer in [0, 256). *)
Definition is_byte (b : Z) : Prop := 0 <= b < 256.

(** ** Sample inputs *)

Module Samples.

Definition rule (attribute operator : string) (value : Any) (percentage : option Z)
    (rollValue : Any) : Rule :=
  {| Attribute := attribute; Operator := operator; Value := value;
     Percentage := percentage; RollValue := rollValue |}.

Definition pro := rule "plan" "equals" (VString "pro") None (VString "first").
Definition beta := rule "beta" "equals" (VString "yes") None (VString "beta").
Definition anyPlan := rule "plan" "always" VNil None (VString "second").
Definition halfPro := rule "plan" "equals" (VString "pro") (Some 50) (VString "half").

Definition flag (enabled : bool) (defaultValue : Any) (rules : list Rule) : FlagConfig :=
  {| Key := "flag"; Type_ := "STRING"; Enabled := enabled; DefaultValue := defaultValue;
     Rules := rules; RolloutPercentage := 0 |}.

Definition proUser : gmap string Any := {[ "plan" := VString "pro" ]}.

(** A catalog with one boolean flag. *)
Definition booleanCatalog : Client :=
  {| onError := false;
     flags := {[ "feature" :=
                 {| Key := "feature"; Type_ := "BOOLEAN"; Enabled := true;
                    DefaultValue := VBool true; Rules := []; RolloutPercentage := 0 |} ]};
     initialized := true |}.

(** A client whose catalog was fetched at time 0 and may be 300 old. *)
Definition staleClient (fired : bool) : Staleness.Client :=
  {| Staleness.onError := true; Staleness.onStale := true; Staleness.maxStaleAge := 300;
     Staleness.flags := flags booleanCatalog; Staleness.initialized := true;
     Staleness.lastUpdatedAt := Some 0; Staleness.staleFired := fired |}.

Definition outage : Reply := DoFails "connection refused".

Definition recovery : Reply := Response 200 "{}" (Decoded ∅).

Definition recovered : list (Z * Reply) := [(100, outage); (600, recovery)].

Definition secondOutage : list (Z * Reply) := [(700, outage); (1000, outage); (1100, outage)].

End Samples.

(** ** client.go: construction and status

    The fields of the client that [NewClient] sets and the refresh does not
    touch are kept in [Transport]; durations are in nanoseconds. A [Config]
    field that is a function or a pointer tells whether it is set. *)

Definition Second : Z := 1000000000.

Definition Minute : Z := 60 * Second.

Definition DefaultAPIURL : string := "https://api.toggletown.com".

Definition DefaultPollingInterval : Z := 30 * Second.

Definition DefaultMaxStaleAge : Z := 5 * Minute.

Record Transport := {
  apiKey : string;
  apiURL : string;
  pollingInterval : Z;
  customHTTPClient : bool
}.

Module Setup.

(** Config holds configuration options for the client. *)
Record Config := {
  APIURL : string;
  PollingInterval : Z;
  OnError : bool;
  HTTPClient : bool
}.

(** NewClient creates a new ToggleTown client; [config] may be nil. *)
Definition NewClient (key : string) (config : option Config) : Transport * Client :=
  match config with
  | None =>
      ({| apiKey := key; apiURL := DefaultAPIURL;
          pollingInterval := DefaultPollingInterval; customHTTPClient := false |},
       {| onError := false; flags := ∅; initialized := false |})
  | Some config =>
      ({| apiKey := key;
          apiURL := if negb (String.eqb (APIURL config) EmptyString)
                    then APIURL config else DefaultAPIURL;
          pollingInterval := if 0 <? PollingInterval config
                             then PollingInterval config else DefaultPollingInterval;
          customHTTPClient := HTTPClient config |},
       {| onError := OnError config; flags := ∅; initialized := false |})
  end.

(** IsInitialized returns whether the client has been initialized. *)
Definition IsInitialized (c : Client) : bool := initialized c.

End Setup.

(** The same, for the revision with staleness tracking. *)
Module StalenessSetup.

Record Config := {
  APIURL : string;
  PollingInterval : Z;
  OnError : bool;
  OnStale : bool;
  MaxStaleAge : Z;
  HTTPClient : bool
}.

Definition NewClient (key : string) (config : option Config)
    : Transport * Staleness.Client :=
  match config with
  | None =>
      ({| apiKey := key; apiURL := DefaultAPIURL;
          pollingInterval := DefaultPollingInterval; customHTTPClient := false |},
       {| Staleness.onError := false; Staleness.onStale := false;
          Staleness.maxStaleAge := DefaultMaxStaleAge; Staleness.flags := ∅;
          Staleness.initialized := false; Staleness.lastUpdatedAt := None;
          Staleness.staleFired := false |})
  | Some config =>
      ({| apiKey := key;
          apiURL := if negb (String.eqb (APIURL config) EmptyString)
                    then APIURL config else DefaultAPIURL;
          pollingInterval := if 0 <? PollingInterval config
                             then PollingInterval config else DefaultPollingInterval;
          customHTTPClient := HTTPClient config |},
       {| Staleness.onError := OnError config; Staleness.onStale := OnStale config;
          Staleness.maxStaleAge := if 0 <? MaxStaleAge config
                                   then MaxStaleAge config else DefaultMaxStaleAge;
          Staleness.flags := ∅;
          Staleness.initialized := false; Staleness.lastUpdatedAt := None;
          Staleness.staleFired := false |})
  end.

(** Initialize fetches flags and starts background polling. *)
Definition Initialize (c : Staleness.Client) (now : Z) (reply : Reply)
    : Staleness.Client * option string :=
  if Staleness.initialized c then (c, None)
  else
    match Staleness.fetchFlagsInitial c now reply with
    | (c', Some err) => (c', Some err)
    | (c', None) =>
        ({| Staleness.onError := Staleness.onError c';
            Staleness.onStale := Staleness.onStale c';
            Staleness.maxStaleAge := Staleness.maxStaleAge c';
            Staleness.flags := Staleness.flags c';
            Staleness.initialized := true;
            Staleness.lastUpdatedAt := Staleness.lastUpdatedAt c';
            Staleness.staleFired := Staleness.staleFired c' |}, None)
    end.

(** ConnectionStatus represents the staleness status of cached flags;
    [LastUpdatedAt] is [None] for the zero value. *)
Record ConnectionStatus := {
  Status : string;
  LastUpdatedAt : option Z;
  Age : Z
}.

(** GetLastUpdatedAt returns the timestamp of the last successful flag
    fetch. *)
Definition GetLastUpdatedAt (c : Staleness.Client) : option Z :=
  Staleness.lastUpdatedAt c.

(** GetStatus returns the connection status including staleness info. *)
Definition GetStatus (c : Staleness.Client) (now : Z) : ConnectionStatus :=
  match Staleness.lastUpdatedAt c with
  | None => {| Status := "fresh"; LastUpdatedAt := None; Age := 0 |}
  | Some updated =>
      let age := now - updated in
      let status := if Staleness.maxStaleAge c <? age then "stale" else "fresh" in
      {| Status := status; LastUpdatedAt := Staleness.lastUpdatedAt c; Age := age |}
  end.

End StalenessSetup.

(** The operators the matcher knows. *)
Definition knownOperators : list string :=
  [ "equals"; "not_equals"; "contains"; "not_contains"; "gt"; "lt"; "in"; "not_in";
    "always" ].

(** A rule with another operator, and a rule with another percentage. *)
Definition withOperator (rule : Rule) (operator : string) : Rule :=
  {| Attribute := Attribute rule; Operator := operator; Value := Value rule;
     Percentage := Percentage rule; RollValue := RollValue rule |}.

Definition withPercentage (rule : Rule) (percentage : option Z) : Rule :=
  {| Attribute := Attribute rule; Operator := Operator rule; Value := Value rule;
     Percentage := percentage; RollValue := RollValue rule |}.

(** A configuration with another rollout percentage. *)
Definition withRollout (config : FlagConfig) (percentage : Z) : FlagConfig :=
  {| Key := Key config; Type_ := Type_ config; Enabled := Enabled config;
     DefaultValue := DefaultValue config; Rules := Rules config;
     RolloutPercentage := percentage |}.

(** The catalog of the last fully successful reply, [catalog] when there is
    none. *)
Fixpoint lastFetched (catalog : gmap string FlagConfig) (replies : list Reply)
    : gmap string FlagConfig :=
  match replies with
  | [] => catalog
  | Response status _ (Decoded Flags) :: rest =>
      lastFetched (if status =? 200 then Flags else catalog) rest
  | _ :: rest => lastFetched catalog rest
  end.

Definition isOnError (e : Event) : bool :=
  match e with OnError _ => true | OnStale _ _ => false end.

(** ** More sample inputs *)

Module MoreSamples.

Definition shouting : Rule := Samples.rule "plan" "Equals" (VString "pro") None VNil.

Definition company : Rule := Samples.rule "email" "contains" (VString "@company.com") None VNil.

Definition employee : gmap string Any := {[ "email" := VString "user@company.com" ]}.

Definition adult : Rule := Samples.rule "age" "equals" (VString "18") None VNil.

Definition eighteen : gmap string Any := {[ "age" := VInt 18 ]}.

Definition fullPro : Rule :=
  Samples.rule "plan" "equals" (VString "pro") (Some 100) (VString "full").

Definition nonePro : Rule :=
  Samples.rule "plan" "equals" (VString "pro") (Some 0) (VString "none").

(** A flag with no rules, rolled out to [percentage] per cent. *)
Definition rolledOut (type : string) (defaultValue : Any) (percentage : Z) : FlagConfig :=
  {| Key := "my-flag"; Type_ := type; Enabled := true; DefaultValue := defaultValue;
     Rules := []; RolloutPercentage := percentage |}.

Definition user123 : gmap string Any := {[ "user_id" := VString "user-123" ]}.

Definition numbered : gmap string Any := {[ "user_id" := VInt 42 ]}.

Definition tenPercent : Client :=
  {| onError := true;
     flags := {[ "my-flag" := rolledOut "BOOLEAN" (VBool true) 10 ]};
     initialized := true |}.

Definition unavailable : Reply := Response 503 "unavailable" (DecodeFails "EOF").

Definition longOutage : list (Z * Reply) :=
  [(100, Samples.outage); (400, Samples.outage); (500, Samples.outage)].

Definition drinkingAge : Rule := Samples.rule "age" "gt" (VFloat64 18) None VNil.

Definition flagged : gmap string Any := {[ "age" := VBool true ]}.

End MoreSamples.

(** * Properties *)

(** ** The digest *)

(** Known answers of SHA-256 (FIPS 180-4, appendix B), as big-endian
    integers. *)
Example Sum256_empty :
  big_endian (SHA256.Sum256 (bytes_of_string EmptyString)) =
  0xe3b0c44298fc1c149afbf4c8996fb92427ae41e4649b934ca495991b7852b855.
Proof. vm_compute. reflexivity. Qed.

Example Sum256_abc :
  big_endian (SHA256.Sum256 (bytes_of_string "abc")) =
  0xba7816bf8f01cfea414140de5dae2223b00361a396177a9cb410ff61f20015ad.
Proof. vm_compute. reflexivity. Qed.

Example Sum256_two_blocks :
  big_endian (SHA256.Sum256
    (bytes_of_string "abcdbcdecdefdefgefghfghighijhijkijkljklmklmnlmnomnopnopq")) =
  0x248d6a61d20638b8e5c026930c3e6039a33ce45964ff2167f6ecedd419db06c1.
Proof. vm_compute. reflexivity. Qed.

Lemma bytes_of_word_bytes w : Forall is_byte (SHA256.bytes_of_word w).
Proof.
  unfold SHA256.bytes_of_word, is_byte.
  repeat constructor; apply Z.mod_pos_bound; lia.
Qed.

Lemma digest_bytes s : Forall is_byte (SHA256.digest s).
Proof.
  unfold SHA256.digest.
  repeat (apply Forall_app; split); apply bytes_of_word_bytes.
Qed.

Lemma Sum256_length data : length (SHA256.Sum256 data) = 32%nat.
Proof. reflexivity. Qed.

Lemma Sum256_bytes data : Forall is_byte (SHA256.Sum256 data).
Proof. apply digest_bytes. Qed.

(** The digest starts with the four bytes of its first word. *)
Lemma Sum256_head data :
  exists b0 b1 b2 b3 rest,
    SHA256.Sum256 data = b0 :: b1 :: b2 :: b3 :: rest
    /\ is_byte b0 /\ is_byte b1 /\ is_byte b2 /\ is_byte b3.
Proof.
  pose proof (Sum256_bytes data) as Hb.
  unfold SHA256.Sum256, SHA256.digest in *.
  set (s := SHA256.blocks _ _ _) in *. clearbody s.
  cbn [SHA256.bytes_of_word app] in *.
  do 4 (apply Forall_cons_1 in Hb as [? Hb]).
  do 5 eexists. split; [reflexivity|]. auto.
Qed.

(** ** Shifts and ors of bytes *)

Lemma land_shifted_low hi lo k :
  0 <= k -> 0 <= lo < 2 ^ k -> Z.land (hi * 2 ^ k) lo = 0.
Proof.
  intros Hk Hlo. apply Z.bits_inj'. intros n Hn.
  rewrite Z.land_spec, Z.bits_0.
  destruct (Z.lt_ge_cases n k) as [Hlt|Hge].
  - rewrite Z.mul_pow2_bits_low by lia. reflexivity.
  - rewrite <- (Z.mod_small lo (2 ^ k)) by lia.
    rewrite Z.mod_pow2_bits_high by lia. apply andb_false_r.
Qed.

Lemma lor_shifted hi lo k :
  0 <= k -> 0 <= lo < 2 ^ k -> Z.lor (hi * 2 ^ k) lo = hi * 2 ^ k + lo.
Proof.
  intros Hk Hlo.
  rewrite Z.add_nocarry_lxor by (apply land_shifted_low; assumption).
  symmetry. apply Z.lxor_lor, land_shifted_low; assumption.
Qed.

(** The word the code assembles with shifts and ors is the big-endian
    reading of the four bytes. *)
Lemma uint32_of_bytes b0 b1 b2 b3 :
  is_byte b0 -> is_byte b1 -> is_byte b2 -> is_byte b3 ->
  Z.lor (Z.lor (Z.lor (uint32 (Z.shiftl (uint32 b0) 24))
                      (uint32 (Z.shiftl (uint32 b1) 16)))
               (uint32 (Z.shiftl (uint32 b2) 8)))
        (uint32 b3)
  = big_endian [b0; b1; b2; b3].
Proof.
  unfold is_byte, uint32, big_endian. intros H0 H1 H2 H3. cbn [fold_left].
  rewrite !Z.shiftl_mul_pow2 by lia.
  rewrite (Z.mod_small b0), (Z.mod_small b1), (Z.mod_small b2), (Z.mod_small b3) by lia.
  rewrite !Z.mod_small by lia.
  rewrite (lor_shifted b0 (b1 * 2 ^ 16) 24) by lia.
  replace (b0 * 2 ^ 24 + b1 * 2 ^ 16) with ((b0 * 2 ^ 8 + b1) * 2 ^ 16) by lia.
  rewrite (lor_shifted _ (b2 * 2 ^ 8) 16) by lia.
  replace ((b0 * 2 ^ 8 + b1) * 2 ^ 16 + b2 * 2 ^ 8)
    with (((b0 * 2 ^ 8 + b1) * 2 ^ 8 + b2) * 2 ^ 8) by lia.
  rewrite (lor_shifted _ b3 8) by lia. lia.
Qed.

(** ** Rollout bucketing *)

Lemma hashString_range input : 0 <= hashString input < 100.
Proof. unfold hashString. apply Z.mod_pos_bound. lia. Qed.

Lemma hashString_big_endian input :
  hashString input =
  big_endian (firstn 4 (SHA256.Sum256 (bytes_of_string input))) mod 100.
Proof.
  unfold hashString.
  destruct (Sum256_head (bytes_of_string input))
    as (b0 & b1 & b2 & b3 & rest & -> & H0 & H1 & H2 & H3).
  cbn [nth firstn]. rewrite uint32_of_bytes by assumption. reflexivity.
Qed.

(** C1. For every userId and flagKey the bucket computed by the code,
    [hashString] of "{userId}:{flagKey}", is the big-endian reading of the
    first 4 bytes of the SHA-256 digest of that string, modulo 100; it is a
    function of the pair, and it lies in [0, 100). *)
Theorem hashString_is_bucket (userId flagKey : string) :
  hashString (rolloutKey userId flagKey) = bucket_spec userId flagKey
  /\ (forall userId' flagKey',
        userId' = userId -> flagKey' = flagKey ->
        hashString (rolloutKey userId' flagKey') = hashString (rolloutKey userId flagKey))
  /\ 0 <= hashString (rolloutKey userId flagKey) < 100.
Proof.
  split; [|split].
  - unfold bucket_spec. apply hashString_big_endian.
  - intros ? ? -> ->. reflexivity.
  - apply hashString_range.
Qed.

Example hashString_user_123 : hashString (rolloutKey "user-123" "my-flag") = 38.
Proof. vm_compute. reflexivity. Qed.

(** C2. isInRollout is false whenever percentage <= 0, true whenever
    percentage >= 100, and otherwise true exactly when the bucket of
    "{userId}:{flagKey}" is below the percentage. *)
Theorem isInRollout_percentage (userID flagKey : string) (percentage : Z) :
  (percentage <= 0 -> isInRollout userID flagKey percentage = false)
  /\ (100 <= percentage -> isInRollout userID flagKey percentage = true)
  /\ (0 < percentage < 100 ->
      (isInRollout userID flagKey percentage = true
       <-> bucket_spec userID flagKey < percentage)).
Proof.
  pose proof (hashString_range (rolloutKey userID flagKey)) as Hr.
  unfold isInRollout. repeat split.
  - intros Hp. destruct (Z.eqb_spec percentage 0); [reflexivity|].
    destruct (Z.leb_spec 100 percentage); [lia|].
    apply Z.ltb_ge. lia.
  - intros Hp. destruct (Z.eqb_spec percentage 0); [lia|].
    destruct (Z.leb_spec 100 percentage); [reflexivity|lia].
  - destruct (Z.eqb_spec percentage 0); [lia|].
    destruct (Z.leb_spec 100 percentage); [lia|].
    unfold bucket_spec. rewrite <- hashString_big_endian.
    intros Hlt. apply Z.ltb_lt, Hlt.
  - destruct (Z.eqb_spec percentage 0); [lia|].
    destruct (Z.leb_spec 100 percentage); [lia|].
    unfold bucket_spec. rewrite <- hashString_big_endian.
    intros Hlt. apply Z.ltb_lt, Hlt.
Qed.

Lemma isInRollout_percentage_witness :
  isInRollout "user-123" "flag" (-5) = false
  /\ isInRollout "user-123" "flag" 0 = false
  /\ isInRollout "user-123" "flag" 100 = true
  /\ (isInRollout "user-123" "my-flag" 50 = true <-> bucket_spec "user-123" "my-flag" < 50).
Proof.
  split; [|split; [|split]].
  - apply (proj1 (isInRollout_percentage "user-123" "flag" (-5))). lia.
  - apply (proj1 (isInRollout_percentage "user-123" "flag" 0)). lia.
  - apply (proj1 (proj2 (isInRollout_percentage "user-123" "flag" 100))). lia.
  - apply (proj2 (proj2 (isInRollout_percentage "user-123" "my-flag" 50))). lia.
Defined.

(** ** First element of a list that passes a test *)

Lemma find_skip {A} (f : A -> bool) (pre rest : list A) :
  Forall (fun x => f x = false) pre ->
  List.find f (pre ++ rest) = List.find f rest.
Proof.
  induction 1 as [|x pre Hx _ IH]; [reflexivity|].
  cbn [app List.find]. rewrite Hx. exact IH.
Qed.

(** When [x] passes the test, the search in [pre ++ x :: later] ends at [x]
    or before, whatever [later] is. *)
Lemma find_upto {A} (f : A -> bool) (pre : list A) (x : A) :
  f x = true ->
  exists first,
    List.find f (pre ++ [x]) = Some first
    /\ forall later, List.find f (pre ++ x :: later) = Some first.
Proof.
  intros Hx. induction pre as [|y pre IH]; cbn [app List.find].
  - rewrite Hx. exists x. split; [reflexivity|]. intros _. reflexivity.
  - destruct (f y).
    + exists y. split; [reflexivity|]. intros _. reflexivity.
    + exact IH.
Qed.

(** ** Flag evaluation *)

Section EvaluatorProperties.
Context `{FloatText}.

(** The test the loop of evaluateFlag makes on a rule is [qualifies]. *)
Lemma rulesLoop_cons config context rule rest :
  rulesLoop config context (contextUserID context) (rule :: rest) =
  if qualifies config context rule then Some (ruleOutcome config rule)
  else rulesLoop config context (contextUserID context) rest.
Proof.
  cbn [rulesLoop]. unfold qualifies, ruleOutcome.
  destruct (matchesRule rule context); cbn [negb andb]; [|reflexivity].
  destruct (Percentage rule) as [p|].
  - destruct (p <? 100); cbn [andb].
    + destruct (String.eqb (contextUserID context) EmptyString); cbn [orb negb andb]; [reflexivity|].
      destruct (isInRollout _ _ p); cbn [negb]; [|reflexivity].
      destruct (RollValue rule); reflexivity.
    + destruct (RollValue rule); reflexivity.
  - destruct (RollValue rule); reflexivity.
Qed.

(** The loop returns the outcome of the first rule that qualifies. *)
Lemma rulesLoop_find config context rules :
  rulesLoop config context (contextUserID context) rules =
  ruleOutcome config <$> List.find (qualifies config context) rules.
Proof.
  induction rules as [|rule rest IH]; [reflexivity|].
  rewrite rulesLoop_cons. cbn [List.find].
  destruct (qualifies config context rule); [reflexivity|exact IH].
Qed.

(** The loop reads the key and the default value of the configuration,
    not its list of rules. *)
Lemma rulesLoop_withRules config rules' context userID rules :
  rulesLoop (withRules config rules') context userID rules =
  rulesLoop config context userID rules.
Proof.
  induction rules as [|rule rest IH]; [reflexivity|].
  cbn [rulesLoop withRules Key DefaultValue]. rewrite IH. reflexivity.
Qed.

Lemma evaluateFlag_withRules config rules context :
  evaluateFlag (withRules config rules) context =
  if negb (Enabled config) then DefaultValue config
  else
    match rulesLoop config context (contextUserID context) rules with
    | Some value => value
    | None =>
        if (0 <? RolloutPercentage config)
           && negb (String.eqb (contextUserID context) EmptyString) then
          if isInRollout (contextUserID context) (Key config) (RolloutPercentage config)
          then DefaultValue config
          else getOffValue (Type_ config)
        else DefaultValue config
    end.
Proof.
  unfold evaluateFlag. rewrite rulesLoop_withRules. reflexivity.
Qed.

Lemma withRules_Rules config : withRules config (Rules config) = config.
Proof. destruct config; reflexivity. Qed.

(** C3. A disabled flag evaluates to its defaultValue in every context, and
    the result is the same whatever rules and rollout percentage the
    configuration carries. *)
Theorem disabled_flag_returns_default (config : FlagConfig) (context : gmap string Any) :
  Enabled config = false ->
  evaluateFlag config context = DefaultValue config
  /\ forall rules percentage,
       evaluateFlag
         {| Key := Key config; Type_ := Type_ config; Enabled := Enabled config;
            DefaultValue := DefaultValue config; Rules := rules;
            RolloutPercentage := percentage |} context
       = DefaultValue config.
Proof.
  intros Hoff. unfold evaluateFlag. cbn [Enabled DefaultValue].
  rewrite Hoff. split; reflexivity.
Qed.

(** C4. Rules are tried in list order and the first qualifying rule decides.
    When two rules of an enabled flag both qualify, the flag evaluates to the
    outcome (rollValue if present, else defaultValue) of the first rule of
    the list that qualifies: that is the earlier of the two, unless a rule
    before it qualifies as well. The rules after the earlier one, the later
    one among them, are not consulted: the result is the same whatever rules
    stand in their place. *)
Theorem first_qualifying_rule_wins (config : FlagConfig) (context : gmap string Any)
    (pre : list Rule) (r1 : Rule) (mid : list Rule) (r2 : Rule) (post : list Rule) :
  Enabled config = true ->
  Rules config = (pre ++ r1 :: mid ++ r2 :: post)%list ->
  qualifies config context r1 = true ->
  qualifies config context r2 = true ->
  exists first,
    List.find (qualifies config context) (pre ++ [r1]) = Some first
    /\ (Forall (fun r => qualifies config context r = false) pre -> first = r1)
    /\ evaluateFlag config context = ruleOutcome config first
    /\ forall later,
         evaluateFlag (withRules config (pre ++ r1 :: later)%list) context
         = ruleOutcome config first.
Proof.
  intros Hon Hrules H1 _.
  destruct (find_upto (qualifies config context) pre r1 H1) as (first & Hfind & Hlater).
  exists first. split; [exact Hfind|]. split.
  - intros Hpre. rewrite (find_skip _ pre [r1] Hpre) in Hfind.
    cbn [List.find] in Hfind. rewrite H1 in Hfind. congruence.
  - assert (Heval : forall later,
               evaluateFlag (withRules config (pre ++ r1 :: later)%list) context
               = ruleOutcome config first).
    { intros later. rewrite evaluateFlag_withRules, Hon. cbn [negb].
      rewrite rulesLoop_find, Hlater. reflexivity. }
    split; [|exact Heval].
    rewrite <- (withRules_Rules config) at 1. rewrite Hrules. apply Heval.
Qed.

(** C5. With an empty user id, a rule that carries a percentage below 100
    does not qualify, whether or not its condition matches; the loop goes on
    to the next rule, so that the flag evaluates as if the rule were not in
    the list. *)
Theorem percentage_rule_needs_user_id (config : FlagConfig) (context : gmap string Any)
    (pre : list Rule) (rule : Rule) (post : list Rule) (percentage : Z) :
  Enabled config = true ->
  contextUserID context = EmptyString ->
  Percentage rule = Some percentage ->
  percentage < 100 ->
  Rules config = (pre ++ rule :: post)%list ->
  qualifies config context rule = false
  /\ rulesLoop config context (contextUserID context) (rule :: post)
     = rulesLoop config context (contextUserID context) post
  /\ evaluateFlag config context
     = evaluateFlag (withRules config (pre ++ post)%list) context.
Proof.
  intros _ Hid Hp Hlt Hrules.
  assert (Hq : qualifies config context rule = false).
  { unfold qualifies. rewrite Hp, Hid.
    destruct (Z.ltb_spec percentage 100); [|lia].
    cbn. apply andb_false_r. }
  assert (Hstep : forall rest,
             rulesLoop config context (contextUserID context) (rule :: rest)
             = rulesLoop config context (contextUserID context) rest).
  { intros rest. rewrite rulesLoop_cons, Hq. reflexivity. }
  split; [exact Hq|]. split; [apply Hstep|].
  rewrite <- (withRules_Rules config) at 1. rewrite Hrules.
  rewrite !evaluateFlag_withRules.
  replace (rulesLoop config context (contextUserID context) (pre ++ rule :: post))
    with (rulesLoop config context (contextUserID context) (pre ++ post)); [reflexivity|].
  clear Hrules. induction pre as [|r pre IH]; cbn [app].
  - symmetry. apply Hstep.
  - rewrite !rulesLoop_cons, IH. reflexivity.
Qed.

(** C6. The value a rule is matched against is [context[attribute]] when
    present, else [context["attributes"][attribute]] when that nested map
    exists and holds the attribute; when it is in neither place the rule
    does not match, whatever its operator. *)
Theorem attribute_lookup_fails_closed (rule : Rule) (context : gmap string Any) :
  matchesRule rule context =
    match lookupAttribute context (Attribute rule) with
    | Some attrValue => matchesOperator (Operator rule) attrValue (Value rule)
    | None => false
    end
  /\ (forall attrValue,
        context !! Attribute rule = Some attrValue ->
        matchesRule rule context
        = matchesOperator (Operator rule) attrValue (Value rule))
  /\ (forall nested attrValue,
        context !! Attribute rule = None ->
        context !! "attributes" = Some (VMap nested) ->
        nested !! Attribute rule = Some attrValue ->
        matchesRule rule context
        = matchesOperator (Operator rule) attrValue (Value rule))
  /\ (context !! Attribute rule = None ->
      (forall nested, context !! "attributes" = Some (VMap nested) ->
                      nested !! Attribute rule = None) ->
      matchesRule rule context = false).
Proof.
  unfold matchesRule, lookupAttribute. repeat split.
  - destruct (context !! Attribute rule); [reflexivity|].
    destruct (context !! "attributes") as [[]|]; reflexivity.
  - intros v ->. reflexivity.
  - intros nested v -> -> ->. reflexivity.
  - intros -> Hnested.
    destruct (context !! "attributes") as [[]|]; try reflexivity.
    rewrite (Hnested _ eq_refl). reflexivity.
Qed.

(** C10, as the code has it. The enabled configuration with defaultValue
    false, rolloutPercentage 100 and no rules evaluates, for the context
    {user_id: "u1"}, to its defaultValue, false, whatever its key and
    type. *)
Theorem full_rollout_returns_default (key type : string) :
  evaluateFlag
    {| Key := key; Type_ := type; Enabled := true; DefaultValue := VBool false;
       Rules := []; RolloutPercentage := 100 |}
    {[ "user_id" := VString "u1" ]}
  = VBool false.
Proof.
  unfold evaluateFlag. cbn [Enabled negb Rules rulesLoop RolloutPercentage Key DefaultValue].
  replace (contextUserID {[ "user_id" := VString "u1" ]}) with "u1" by reflexivity.
  replace (isInRollout "u1" key 100) with true by reflexivity.
  reflexivity.
Qed.

End EvaluatorProperties.

(** *** Evaluation on concrete inputs *)

Module Examples.
Import IntegerText Samples.

(** The matcher on the cases of the repository's tests. *)
Example matches_equals :
  matchesRule (rule "plan" "equals" (VString "pro") None VNil) proUser = true
  /\ matchesRule (rule "plan" "equals" (VString "pro") None VNil)
       {[ "plan" := VString "free" ]} = false.
Proof. split; vm_compute; reflexivity. Qed.

Example matches_gt :
  matchesRule (rule "age" "gt" (VFloat64 18) None VNil) {[ "age" := VFloat64 25 ]} = true
  /\ matchesRule (rule "age" "gt" (VFloat64 18) None VNil) {[ "age" := VFloat64 15 ]} = false.
Proof. split; vm_compute; reflexivity. Qed.

Example matches_in :
  matchesRule (rule "country" "in" (VSlice [VString "US"; VString "CA"; VString "UK"]) None VNil)
    {[ "country" := VString "US" ]} = true
  /\ matchesRule (rule "country" "in" (VSlice [VString "US"; VString "CA"; VString "UK"]) None VNil)
       {[ "country" := VString "DE" ]} = false.
Proof. split; vm_compute; reflexivity. Qed.

(** An absent attribute fails every operator, [always] and the negated ones
    included. *)
Example absent_attribute :
  matchesRule (rule "plan" "always" VNil None VNil) ∅ = false
  /\ matchesRule (rule "plan" "not_equals" (VString "free") None VNil) ∅ = false
  /\ matchesRule (rule "plan" "not_in" (VSlice []) None VNil) ∅ = false.
Proof. repeat split; vm_compute; reflexivity. Qed.

End Examples.

Lemma disabled_flag_returns_default_witness :
  evaluateFlag (H := IntegerText.text)
    {| Key := "flag"; Type_ := "BOOLEAN"; Enabled := false; DefaultValue := VBool true;
       Rules := [Samples.pro]; RolloutPercentage := 100 |} Samples.proUser
  = VBool true
  /\ forall rules percentage,
       evaluateFlag (H := IntegerText.text)
         {| Key := "flag"; Type_ := "BOOLEAN"; Enabled := false; DefaultValue := VBool true;
            Rules := rules; RolloutPercentage := percentage |} Samples.proUser
       = VBool true.
Proof.
  apply (disabled_flag_returns_default (H := IntegerText.text)
           {| Key := "flag"; Type_ := "BOOLEAN"; Enabled := false; DefaultValue := VBool true;
              Rules := [Samples.pro]; RolloutPercentage := 100 |} Samples.proUser).
  reflexivity.
Defined.

Lemma first_qualifying_rule_wins_witness :
  evaluateFlag (H := IntegerText.text)
    (Samples.flag true (VString "default") [Samples.beta; Samples.pro; Samples.anyPlan])
    Samples.proUser
  = VString "first".
Proof.
  destruct (first_qualifying_rule_wins (H := IntegerText.text)
              (Samples.flag true (VString "default")
                 [Samples.beta; Samples.pro; Samples.anyPlan])
              Samples.proUser [Samples.beta] Samples.pro [] Samples.anyPlan [])
    as (first & _ & Hfirst & Heval & _).
  - reflexivity.
  - reflexivity.
  - vm_compute. reflexivity.
  - vm_compute. reflexivity.
  - rewrite Heval, Hfirst; [reflexivity|]. repeat constructor.
Defined.

Lemma percentage_rule_needs_user_id_witness :
  evaluateFlag (H := IntegerText.text)
    (Samples.flag true (VString "default") [Samples.halfPro; Samples.anyPlan])
    Samples.proUser
  = evaluateFlag (H := IntegerText.text)
      (Samples.flag true (VString "default") [Samples.anyPlan]) Samples.proUser.
Proof.
  apply (percentage_rule_needs_user_id (H := IntegerText.text)
           (Samples.flag true (VString "default") [Samples.halfPro; Samples.anyPlan])
           Samples.proUser [] Samples.halfPro [Samples.anyPlan] 50).
  - reflexivity.
  - vm_compute. reflexivity.
  - reflexivity.
  - lia.
  - reflexivity.
Defined.

Lemma attribute_lookup_fails_closed_witness :
  matchesRule (H := IntegerText.text)
    (Samples.rule "plan" "equals" (VString "pro") None VNil)
    {[ "attributes" := VMap Samples.proUser ]}
  = true
  /\ matchesRule (H := IntegerText.text)
       (Samples.rule "plan" "always" VNil None VNil) {[ "attributes" := VString "pro" ]}
     = false.
Proof.
  split.
  - rewrite (proj1 (proj2 (proj2 (attribute_lookup_fails_closed (H := IntegerText.text)
                (Samples.rule "plan" "equals" (VString "pro") None VNil)
                {[ "attributes" := VMap Samples.proUser ]})))
             Samples.proUser (VString "pro"));
      vm_compute; reflexivity.
  - apply (proj2 (proj2 (proj2 (attribute_lookup_fails_closed (H := IntegerText.text)
                (Samples.rule "plan" "always" VNil None VNil)
                {[ "attributes" := VString "pro" ]})))).
    + vm_compute. reflexivity.
    + intros nested Hn. vm_compute in Hn. discriminate Hn.
Defined.

(** C10, as the claim has it: the result is not [true]. *)
Lemma full_rollout_is_not_true :
  evaluateFlag (H := IntegerText.text)
    {| Key := "flag"; Type_ := "BOOLEAN"; Enabled := true; DefaultValue := VBool false;
       Rules := []; RolloutPercentage := 100 |}
    {[ "user_id" := VString "u1" ]}
  <> VBool true.
Proof. vm_compute. discriminate. Qed.

(** ** The typed accessors *)

Section AccessorProperties.
Context `{FloatText}.

(** C7, as the code has it. Each accessor returns the caller's default when
    the key is not in the catalog. GetBooleanFlag, GetStringFlag and
    GetNumberFlag also return it when the evaluated value is not of their
    type. GetJSONFlag makes no test of type: it returns the caller's default
    when the evaluated value is nil and the evaluated value itself
    otherwise. All four are total: no input makes them fail. *)
Theorem accessors_fall_back_to_default (c : Client) (key : string)
    (context : gmap string Any) :
  (getFlagConfig c key = None ->
     (forall d, GetBooleanFlag c key d context = d)
     /\ (forall d, GetStringFlag c key d context = d)
     /\ (forall d, GetNumberFlag c key d context = d)
     /\ (forall d, GetJSONFlag c key d context = d))
  /\ (forall config, getFlagConfig c key = Some config ->
        (forall d, hasType BOOLEAN (evaluateFlag config context) = false ->
                   GetBooleanFlag c key d context = d)
        /\ (forall d, hasType STRING (evaluateFlag config context) = false ->
                      GetStringFlag c key d context = d)
        /\ (forall d, hasType NUMBER (evaluateFlag config context) = false ->
                      GetNumberFlag c key d context = d)
        /\ (forall d, evaluateFlag config context = VNil ->
                      GetJSONFlag c key d context = d)
        /\ (forall d, evaluateFlag config context <> VNil ->
                      GetJSONFlag c key d context = evaluateFlag config context)).
Proof.
  unfold GetBooleanFlag, GetStringFlag, GetNumberFlag, GetJSONFlag. split.
  - intros ->. repeat split; reflexivity.
  - intros config ->. repeat split; intros d Hv.
    + destruct (evaluateFlag config context); try reflexivity; discriminate Hv.
    + destruct (evaluateFlag config context); try reflexivity; discriminate Hv.
    + destruct (evaluateFlag config context); try reflexivity; discriminate Hv.
    + rewrite Hv. reflexivity.
    + destruct (evaluateFlag config context); try reflexivity. contradiction.
Qed.

(** What the accessors return when the value is of their type. *)
Lemma accessors_return_typed_value (c : Client) (key : string)
    (context : gmap string Any) (config : FlagConfig) :
  getFlagConfig c key = Some config ->
  (forall v d, evaluateFlag config context = VBool v -> GetBooleanFlag c key d context = v)
  /\ (forall v d, evaluateFlag config context = VString v -> GetStringFlag c key d context = v)
  /\ (forall v d, evaluateFlag config context = VFloat64 v -> GetNumberFlag c key d context = v).
Proof.
  unfold GetBooleanFlag, GetStringFlag, GetNumberFlag. intros ->.
  repeat split; intros v d ->; reflexivity.
Qed.

End AccessorProperties.

Lemma accessors_fall_back_to_default_witness :
  GetStringFlag (H := IntegerText.text) Samples.booleanCatalog "feature" "control" ∅ = "control"
  /\ GetBooleanFlag (H := IntegerText.text) Samples.booleanCatalog "missing" false ∅ = false.
Proof.
  split.
  - apply (proj2 (accessors_fall_back_to_default (H := IntegerText.text)
                    Samples.booleanCatalog "feature" ∅)
             {| Key := "feature"; Type_ := "BOOLEAN"; Enabled := true;
                DefaultValue := VBool true; Rules := []; RolloutPercentage := 0 |}).
    + vm_compute. reflexivity.
    + vm_compute. reflexivity.
  - apply (proj1 (accessors_fall_back_to_default (H := IntegerText.text)
                    Samples.booleanCatalog "missing" ∅)).
    vm_compute. reflexivity.
Defined.

(** C7, as the claim has it, fails for GetJSONFlag: on a flag that evaluates
    to a boolean it returns that boolean, not the caller's default. *)
Lemma GetJSONFlag_returns_value_of_other_type :
  ~ (forall (c : Client) (key : string) (d : Any) (context : gmap string Any)
            (config : FlagConfig),
        getFlagConfig c key = Some config ->
        hasType JSON (evaluateFlag (H := IntegerText.text) config context) = false ->
        GetJSONFlag (H := IntegerText.text) c key d context = d).
Proof.
  intros Hclaim.
  specialize (Hclaim Samples.booleanCatalog "feature" (VMap ∅) ∅ _ eq_refl eq_refl).
  vm_compute in Hclaim. discriminate Hclaim.
Qed.

(** ** Refreshing the catalog *)

Lemma checkStaleness_flags c now :
  Staleness.flags (Staleness.checkStaleness c now).1 = Staleness.flags c.
Proof.
  unfold Staleness.checkStaleness.
  destruct (Staleness.lastUpdatedAt c); [|reflexivity].
  destruct (_ && _); reflexivity.
Qed.

Lemma failed_unfold c now err :
  Staleness.failed c now err =
  ((Staleness.checkStaleness c now).1,
   ((if Staleness.onError c then [OnError err] else [])
      ++ (Staleness.checkStaleness c now).2)%list).
Proof.
  unfold Staleness.failed. destruct (Staleness.checkStaleness c now). reflexivity.
Qed.

Lemma RefreshFails_fetchFlags c reply err :
  RefreshFails reply err ->
  fetchFlags c reply = (c, if onError c then [OnError err] else []).
Proof.
  intros Hfail. destruct Hfail as [err|err|status body decode Hstatus|body err];
    cbn [fetchFlags]; try reflexivity.
  unfold StatusOK. destruct (Z.eqb_spec status 200); [contradiction|reflexivity].
Qed.

Lemma RefreshFails_Staleness_fetchFlags c now reply err :
  RefreshFails reply err ->
  Staleness.fetchFlags c now reply = Staleness.failed c now err.
Proof.
  intros Hfail. destruct Hfail as [err|err|status body decode Hstatus|body err];
    cbn [Staleness.fetchFlags]; try reflexivity.
  unfold StatusOK. destruct (Z.eqb_spec status 200); [contradiction|reflexivity].
Qed.

(** Every reply either fails with some error or is a full success. *)
Lemma reply_cases reply :
  (exists err, RefreshFails reply err /\ refreshSucceeds reply = false)
  \/ (exists body Flags, reply = Response 200 body (Decoded Flags)
                         /\ refreshSucceeds reply = true).
Proof.
  destruct reply as [err|err|status body decode].
  - left. exists err. split; [constructor|reflexivity].
  - left. exists err. split; [constructor|reflexivity].
  - destruct (Z.eqb_spec status 200) as [->|Hne].
    + destruct decode as [err|Flags].
      * left. exists err. split; [constructor|reflexivity].
      * right. exists body, Flags. split; reflexivity.
    + left. eexists. split; [constructor; exact Hne|].
      cbn. destruct decode; [reflexivity|]. apply Z.eqb_neq, Hne.
Qed.

(** C8. A background refresh that fails, by a request error, a status other
    than 200 (so every non-2xx status) or a body that does not decode,
    leaves the catalog as it was and calls the error callback, when one is
    configured, with the error. The catalog changes only on a fully
    successful fetch, and then it is the fetched catalog as a whole. This
    holds for fetchFlags of client.go, where a failed refresh leaves the
    whole client as it was, and of its revision with staleness tracking. *)
Theorem failed_refresh_keeps_catalog (c : Client) (s : Staleness.Client) (now : Z)
    (reply : Reply) :
  (forall err, RefreshFails reply err ->
     fetchFlags c reply = (c, if onError c then [OnError err] else [])
     /\ Staleness.flags (Staleness.fetchFlags s now reply).1 = Staleness.flags s
     /\ List.filter (fun e => negb (isOnStale e)) (Staleness.fetchFlags s now reply).2
        = (if Staleness.onError s then [OnError err] else []))
  /\ (flags (fetchFlags c reply).1 = flags c
      \/ exists body Flags,
           reply = Response 200 body (Decoded Flags)
           /\ flags (fetchFlags c reply).1 = Flags)
  /\ (Staleness.flags (Staleness.fetchFlags s now reply).1 = Staleness.flags s
      \/ exists body Flags,
           reply = Response 200 body (Decoded Flags)
           /\ Staleness.flags (Staleness.fetchFlags s now reply).1 = Flags).
Proof.
  assert (Hfail : forall err, RefreshFails reply err ->
     fetchFlags c reply = (c, if onError c then [OnError err] else [])
     /\ Staleness.flags (Staleness.fetchFlags s now reply).1 = Staleness.flags s
     /\ List.filter (fun e => negb (isOnStale e)) (Staleness.fetchFlags s now reply).2
        = (if Staleness.onError s then [OnError err] else [])).
  { intros err Hf. split; [apply RefreshFails_fetchFlags, Hf|].
    rewrite (RefreshFails_Staleness_fetchFlags s now reply err Hf), failed_unfold.
    cbn [fst snd]. split; [apply checkStaleness_flags|].
    rewrite List.filter_app.
    assert (Halarm : List.filter (fun e => negb (isOnStale e))
                       (Staleness.checkStaleness s now).2 = []).
    { unfold Staleness.checkStaleness.
      destruct (Staleness.lastUpdatedAt s); [|reflexivity].
      destruct (_ && _); [|reflexivity].
      destruct (Staleness.onStale s); reflexivity. }
    rewrite Halarm, app_nil_r. destruct (Staleness.onError s); reflexivity. }
  split; [exact Hfail|].
  destruct (reply_cases reply) as [(err & Hf & _)|(body & Flags & -> & _)].
  - destruct (Hfail err Hf) as (Hc & Hs & _). split; left.
    + rewrite Hc. reflexivity.
    + exact Hs.
  - split; right; exists body, Flags; split; reflexivity.
Qed.

Lemma failed_refresh_keeps_catalog_witness :
  fetchFlags {| onError := true; flags := flags Samples.booleanCatalog; initialized := true |}
    (Response 503 "unavailable" (DecodeFails "EOF"))
  = ({| onError := true; flags := flags Samples.booleanCatalog; initialized := true |},
     [OnError "API returned status 503: unavailable"])
  /\ Staleness.flags
       (Staleness.fetchFlags (Samples.staleClient false) 400
          (Response 503 "unavailable" (DecodeFails "EOF"))).1
     = flags Samples.booleanCatalog.
Proof.
  destruct (proj1 (failed_refresh_keeps_catalog
                     {| onError := true; flags := flags Samples.booleanCatalog; initialized := true |}
                     (Samples.staleClient false) 400
                     (Response 503 "unavailable" (DecodeFails "EOF")))
              "API returned status 503: unavailable") as (Hc & Hs & _).
  - apply (status_not_ok 503 "unavailable" (DecodeFails "EOF")). lia.
  - split; [exact Hc|exact Hs].
Defined.

(** ** The stale alarm *)

Lemma staleCalls_app events1 events2 :
  staleCalls (events1 ++ events2) = (staleCalls events1 ++ staleCalls events2)%list.
Proof. apply List.filter_app. Qed.

Lemma staleCalls_reported (configured : bool) err :
  staleCalls (if configured then [OnError err] else []) = [].
Proof. destruct configured; reflexivity. Qed.

(** checkStaleness either leaves the client alone and calls nothing, or
    finds an unannounced stale catalog, sets [staleFired] and calls the
    stale callback, when one is configured. *)
Lemma checkStaleness_cases c now :
  (Staleness.checkStaleness c now = (c, [])
   /\ (Staleness.staleFired c = true
       \/ Staleness.IsStale c now = false))
  \/ (exists updated,
        Staleness.lastUpdatedAt c = Some updated
        /\ Staleness.maxStaleAge c < now - updated
        /\ Staleness.staleFired c = false
        /\ Staleness.staleFired (Staleness.checkStaleness c now).1 = true
        /\ (Staleness.checkStaleness c now).2
           = if Staleness.onStale c then [OnStale updated (now - updated)] else []).
Proof.
  unfold Staleness.checkStaleness, Staleness.IsStale.
  destruct (Staleness.lastUpdatedAt c) as [updated|]; [|left; auto].
  destruct (Z.ltb_spec (Staleness.maxStaleAge c) (now - updated)); cbn [andb].
  - destruct (Staleness.staleFired c); cbn [negb].
    + left. auto.
    + right. exists updated. repeat split; assumption || reflexivity.
  - left. auto.
Qed.

Lemma failing_reply reply :
  refreshSucceeds reply = false -> exists err, RefreshFails reply err.
Proof.
  intros Hf. destruct (reply_cases reply) as [(err & Hr & _)|(body & Flags & _ & Hs)].
  - exists err. exact Hr.
  - congruence.
Qed.

(** A refresh that fails changes [staleFired] and calls the stale callback
    as checkStaleness does. *)
Lemma failing_fetch_stale c now reply :
  refreshSucceeds reply = false ->
  (Staleness.fetchFlags c now reply).1 = (Staleness.checkStaleness c now).1
  /\ staleCalls (Staleness.fetchFlags c now reply).2
     = staleCalls (Staleness.checkStaleness c now).2.
Proof.
  intros Hf. destruct (failing_reply reply Hf) as [err Hr].
  rewrite (RefreshFails_Staleness_fetchFlags c now reply err Hr), failed_unfold.
  cbn [fst snd]. split; [reflexivity|].
  rewrite staleCalls_app, staleCalls_reported. reflexivity.
Qed.

Lemma polling_app c history episode :
  Staleness.polling c (history ++ episode) =
  ((Staleness.polling (Staleness.polling c history).1 episode).1,
   ((Staleness.polling c history).2
      ++ (Staleness.polling (Staleness.polling c history).1 episode).2)%list).
Proof.
  revert c. induction history as [|[now reply] history IH]; intros c.
  - cbn. destruct (Staleness.polling c episode). reflexivity.
  - cbn [app Staleness.polling].
    destruct (Staleness.fetchFlags c now reply) as [c1 events1].
    rewrite IH.
    destruct (Staleness.polling c1 history) as [c2 events2]. cbn [fst snd].
    destruct (Staleness.polling c2 episode) as [c3 events3]. cbn [fst snd].
    rewrite app_assoc. reflexivity.
Qed.

(** Over refreshes that all fail, the stale callback is called at most
    once, and not at all once [staleFired] is set. *)
Lemma failing_episode_calls episode :
  Forall (fun tick : Z * Reply => refreshSucceeds tick.2 = false) episode ->
  forall c,
    (length (staleCalls (Staleness.polling c episode).2)
     <= (if Staleness.staleFired c then 0 else 1))%nat.
Proof.
  induction 1 as [|[now reply] episode Hfail _ IH]; intros c.
  - cbn. lia.
  - cbn [Staleness.polling]. cbn [snd] in Hfail.
    destruct (failing_fetch_stale c now reply Hfail) as [Hc Hev].
    destruct (Staleness.fetchFlags c now reply) as [c1 events1]. cbn [fst snd] in Hc, Hev.
    specialize (IH c1).
    destruct (Staleness.polling c1 episode) as [c2 events2]. cbn [fst snd] in IH |- *.
    rewrite staleCalls_app, length_app, Hev. subst c1.
    destruct (checkStaleness_cases c now)
      as [[Hsame _]|(updated & _ & _ & Hoff & Hon & Hcall)].
    + rewrite Hsame in IH |- *. cbn [fst snd staleCalls List.filter length] in IH |- *. lia.
    + rewrite Hon in IH. rewrite Hcall, Hoff.
      destruct (Staleness.onStale c); cbn [staleCalls List.filter isOnStale length]; lia.
Qed.

(** C9. The stale alarm fires at most once per stale episode. A failed
    refresh that finds the catalog older than the maximum age while
    [staleFired] is unset sets it and calls the stale callback, with the time
    of the last update and the age; a failed refresh that finds [staleFired]
    set, or the catalog not stale, calls nothing and leaves [staleFired] as
    it is; a successful refresh resets [staleFired] to false. So, after any
    history of refreshes, a run of failed refreshes calls the stale callback
    at most once. *)
Theorem stale_alarm_fires_once_per_episode (c : Staleness.Client) :
  (forall now reply updated,
     refreshSucceeds reply = false ->
     Staleness.lastUpdatedAt c = Some updated ->
     Staleness.staleFired c = false ->
     Staleness.maxStaleAge c < now - updated ->
     Staleness.staleFired (Staleness.fetchFlags c now reply).1 = true
     /\ staleCalls (Staleness.fetchFlags c now reply).2
        = if Staleness.onStale c then [OnStale updated (now - updated)] else [])
  /\ (forall now reply,
        refreshSucceeds reply = false ->
        Staleness.staleFired c = true \/ Staleness.IsStale c now = false ->
        Staleness.staleFired (Staleness.fetchFlags c now reply).1 = Staleness.staleFired c
        /\ staleCalls (Staleness.fetchFlags c now reply).2 = [])
  /\ (forall now reply,
        refreshSucceeds reply = true ->
        Staleness.staleFired (Staleness.fetchFlags c now reply).1 = false
        /\ Staleness.lastUpdatedAt (Staleness.fetchFlags c now reply).1 = Some now
        /\ (Staleness.fetchFlags c now reply).2 = [])
  /\ (forall history episode,
        Forall (fun tick : Z * Reply => refreshSucceeds tick.2 = false) episode ->
        (Staleness.polling c (history ++ episode)).2
        = ((Staleness.polling c history).2
             ++ (Staleness.polling (Staleness.polling c history).1 episode).2)%list
        /\ (length (staleCalls (Staleness.polling (Staleness.polling c history).1 episode).2)
            <= 1)%nat).
Proof.
  split; [|split; [|split]].
  - intros now reply updated Hfail Hupdated Hoff Hold.
    destruct (failing_fetch_stale c now reply Hfail) as [-> ->].
    destruct (checkStaleness_cases c now)
      as [[_ [Hfired|Hfresh]]|(updated' & Hupdated' & _ & _ & Hon & Hcall)].
    + congruence.
    + unfold Staleness.IsStale in Hfresh. rewrite Hupdated in Hfresh.
      apply Z.ltb_ge in Hfresh. lia.
    + rewrite Hupdated in Hupdated'. injection Hupdated' as <-.
      split; [exact Hon|]. rewrite Hcall.
      destruct (Staleness.onStale c); reflexivity.
  - intros now reply Hfail Hquiet.
    destruct (failing_fetch_stale c now reply Hfail) as [-> ->].
    destruct (checkStaleness_cases c now)
      as [[-> _]|(updated & Hupdated & Hold & Hoff & _ & _)].
    + split; reflexivity.
    + destruct Hquiet as [Hfired|Hfresh]; [congruence|].
      unfold Staleness.IsStale in Hfresh. rewrite Hupdated in Hfresh.
      apply Z.ltb_ge in Hfresh. lia.
  - intros now reply Hok.
    destruct (reply_cases reply) as [(err & _ & Hno)|(body & Flags & -> & _)];
      [congruence|].
    repeat split; reflexivity.
  - intros history episode Hfail. split.
    + rewrite polling_app. reflexivity.
    + pose proof (failing_episode_calls episode Hfail (Staleness.polling c history).1) as Hle.
      destruct (Staleness.staleFired _) in Hle; lia.
Qed.

(** A catalog fetched at time 0 with a maximum age of 300: two episodes of
    failed refreshes, one Samples.recovery between them, one alarm for each. *)
Example two_stale_episodes :
  staleCalls
    (Staleness.polling (Samples.staleClient false)
       [(100, Samples.outage); (400, Samples.outage); (500, Samples.outage); (600, Samples.recovery);
        (700, Samples.outage); (1000, Samples.outage); (1100, Samples.outage)]).2
  = [OnStale 0 400; OnStale 600 400].
Proof. vm_compute. reflexivity. Qed.

Lemma stale_alarm_fires_once_per_episode_witness :
  (Staleness.staleFired (Staleness.fetchFlags (Samples.staleClient false) 400 Samples.outage).1 = true
   /\ staleCalls (Staleness.fetchFlags (Samples.staleClient false) 400 Samples.outage).2 = [OnStale 0 400])
  /\ (length
        (staleCalls
           (Staleness.polling
              (Staleness.polling (Samples.staleClient false) Samples.recovered).1 Samples.secondOutage).2) <= 1)%nat.
Proof.
  split.
  - apply (proj1 (stale_alarm_fires_once_per_episode (Samples.staleClient false)) 400 Samples.outage 0).
    + reflexivity.
    + reflexivity.
    + reflexivity.
    + vm_compute. reflexivity.
  - apply (proj2 (proj2 (proj2 (stale_alarm_fires_once_per_episode (Samples.staleClient false))))
             Samples.recovered Samples.secondOutage).
    repeat constructor.
Defined.

(** * Further properties of the code *)

(** ** Rollout *)

(** X1. Raising the percentage never takes a user out of a rollout: a user
    included at one percentage is included at every higher one. *)
Theorem isInRollout_monotone (userID flagKey : string) (p p' : Z) :
  p <= p' ->
  isInRollout userID flagKey p = true ->
  isInRollout userID flagKey p' = true.
Proof.
  pose proof (hashString_range (rolloutKey userID flagKey)) as Hr.
  unfold isInRollout. intros Hle.
  destruct (Z.eqb_spec p 0); [discriminate|].
  destruct (Z.eqb_spec p' 0) as [->|_].
  - destruct (Z.leb_spec 100 p); [lia|].
    intros Hin. apply Z.ltb_lt in Hin. lia.
  - destruct (Z.leb_spec 100 p'); [reflexivity|].
    destruct (Z.leb_spec 100 p); [lia|].
    intros Hin. apply Z.ltb_lt in Hin. apply Z.ltb_lt. lia.
Qed.

Lemma isInRollout_monotone_witness :
  isInRollout "user-123" "my-flag" 75 = true.
Proof.
  apply (isInRollout_monotone "user-123" "my-flag" 50 75).
  - lia.
  - vm_compute. reflexivity.
Defined.

(** ** The operators of the matcher *)

Lemma prefix_spec sub s :
  String.prefix sub s = true <-> exists post, s = sub +:+ post.
Proof.
  revert s. induction sub as [|a sub IH]; intros s.
  - split; [intros _; exists s; reflexivity|intros _; destruct s; reflexivity].
  - destruct s as [|b s]; cbn.
    + split; [discriminate|]. intros [post Hpost]. discriminate Hpost.
    + destruct (Ascii.ascii_dec a b) as [->|Hne].
      * rewrite IH. split; intros [post Hpost]; exists post.
        -- rewrite Hpost. reflexivity.
        -- injection Hpost as Hpost. exact Hpost.
      * split; [discriminate|]. intros [post Hpost].
        injection Hpost as Hab _. congruence.
Qed.

(** [Contains] is the search for a contiguous substring. *)
Lemma Contains_spec s sub :
  Contains s sub = true <-> exists pre post, s = pre +:+ sub +:+ post.
Proof.
  induction s as [|c s IH]; cbn [Contains].
  - rewrite orb_false_r, prefix_spec. split.
    + intros [post Hpost]. exists EmptyString, post. exact Hpost.
    + intros (pre & post & Hs). destruct pre; [|discriminate Hs].
      exists post. exact Hs.
  - rewrite orb_true_iff, prefix_spec, IH. split.
    + intros [[post Hpost]|(pre & post & Hs)].
      * exists EmptyString, post. exact Hpost.
      * exists (String c pre), post. cbn. rewrite Hs. reflexivity.
    + intros (pre & post & Hs). destruct pre as [|c' pre].
      * left. exists post. exact Hs.
      * right. cbn in Hs. injection Hs as _ Hs. exists pre, post. exact Hs.
Qed.

Section OperatorProperties.
Context `{FloatText}.

Lemma matchesRule_lookupAttribute rule context :
  matchesRule rule context =
  match lookupAttribute context (Attribute rule) with
  | Some attrValue => matchesOperator (Operator rule) attrValue (Value rule)
  | None => false
  end.
Proof.
  unfold matchesRule, lookupAttribute.
  destruct (context !! Attribute rule); [reflexivity|].
  destruct (context !! "attributes") as [[]|]; reflexivity.
Qed.

Lemma matchesOperator_unknown operator attrValue ruleValue :
  ~ In operator knownOperators ->
  matchesOperator operator attrValue ruleValue = false.
Proof.
  intros Hunknown. unfold matchesOperator.
  repeat match goal with
         | |- context [String.eqb operator ?name] =>
             destruct (String.eqb_spec operator name) as [->|_];
             [exfalso; apply Hunknown; unfold knownOperators; cbn; tauto|]
         end.
  reflexivity.
Qed.

(** X2. A rule whose operator is not one of the nine the matcher knows
    (names are case-sensitive) matches no context. *)
Theorem unknown_operator_never_matches (rule : Rule) (context : gmap string Any) :
  ~ In (Operator rule) knownOperators ->
  matchesRule rule context = false.
Proof.
  intros Hunknown. rewrite matchesRule_lookupAttribute.
  destruct (lookupAttribute context (Attribute rule)); [|reflexivity].
  apply matchesOperator_unknown, Hunknown.
Qed.

(** X3. When the attribute is found, [not_equals] and [not_in] are the
    exact negations of [equals] and [in], for every rule value ([not_in]
    holds when the rule value is not a list). When the attribute is not
    found, a rule and its negated form both fail. *)
Theorem negated_operators (rule : Rule) (context : gmap string Any) :
  (forall attrValue,
     lookupAttribute context (Attribute rule) = Some attrValue ->
     matchesRule (withOperator rule "not_equals") context
     = negb (matchesRule (withOperator rule "equals") context)
     /\ matchesRule (withOperator rule "not_in") context
        = negb (matchesRule (withOperator rule "in") context))
  /\ (lookupAttribute context (Attribute rule) = None ->
      forall operator, matchesRule (withOperator rule operator) context = false).
Proof.
  split.
  - intros attrValue Hfound. rewrite !matchesRule_lookupAttribute.
    cbn [withOperator Attribute Operator Value]. rewrite Hfound. split.
    + reflexivity.
    + destruct (Value rule); reflexivity.
  - intros Hmissing operator. rewrite matchesRule_lookupAttribute.
    cbn [withOperator Attribute]. rewrite Hmissing. reflexivity.
Qed.

(** X4. With a string attribute and a string rule value, [contains]
    matches exactly when the rule value occurs in the attribute as a
    contiguous substring, and [not_contains] exactly when it does not. *)
Theorem contains_is_substring (rule : Rule) (context : gmap string Any)
    (attr value : string) :
  lookupAttribute context (Attribute rule) = Some (VString attr) ->
  Value rule = VString value ->
  (matchesRule (withOperator rule "contains") context = true
   <-> exists pre post, attr = pre +:+ value +:+ post)
  /\ matchesRule (withOperator rule "not_contains") context
     = negb (matchesRule (withOperator rule "contains") context).
Proof.
  intros Hfound Hvalue. rewrite !matchesRule_lookupAttribute.
  cbn [withOperator Attribute Operator Value]. rewrite Hfound, Hvalue.
  change (matchesOperator "contains" (VString attr) (VString value))
    with (Contains attr value).
  change (matchesOperator "not_contains" (VString attr) (VString value))
    with (negb (Contains attr value)).
  split; [apply Contains_spec|reflexivity].
Qed.

(** X5. [contains] and [not_contains] both fail when the attribute or the
    rule value is not a string: there [not_contains] is not the negation of
    [contains]. *)
Theorem contains_needs_strings (rule : Rule) (context : gmap string Any)
    (attrValue : Any) :
  lookupAttribute context (Attribute rule) = Some attrValue ->
  hasType STRING attrValue && hasType STRING (Value rule) = false ->
  matchesRule (withOperator rule "contains") context = false
  /\ matchesRule (withOperator rule "not_contains") context = false.
Proof.
  intros Hfound Hother. rewrite !matchesRule_lookupAttribute.
  cbn [withOperator Attribute Operator Value]. rewrite Hfound.
  destruct attrValue, (Value rule); try discriminate Hother; split; reflexivity.
Qed.

(** X6. [equals] and [in] compare values by their [%v] text, not by type:
    with the attribute found, [in] matches exactly when the rule value is a
    list with an element whose text is that of the attribute, and [equals]
    exactly when the two texts are the same; so an int attribute equals
    the string of its decimal digits. *)
Theorem in_compares_text (rule : Rule) (context : gmap string Any) (attrValue : Any) :
  lookupAttribute context (Attribute rule) = Some attrValue ->
  (matchesRule (withOperator rule "in") context = true
   <-> exists items item,
         Value rule = VSlice items /\ In item items
         /\ Sprintv item = Sprintv attrValue)
  /\ (matchesRule (withOperator rule "equals") context = true
      <-> Sprintv attrValue = Sprintv (Value rule))
  /\ (forall n, attrValue = VInt n -> Value rule = VString (pretty n) ->
                matchesRule (withOperator rule "equals") context = true).
Proof.
  intros Hfound. rewrite !matchesRule_lookupAttribute.
  cbn [withOperator Attribute Operator Value]. rewrite Hfound.
  assert (Heq : matchesOperator "equals" attrValue (Value rule) = true
                <-> Sprintv attrValue = Sprintv (Value rule)).
  { change (matchesOperator "equals" attrValue (Value rule))
      with (String.eqb (Sprintv attrValue) (Sprintv (Value rule))).
    apply String.eqb_eq. }
  split; [|split; [exact Heq|]].
  - destruct (Value rule) as [| | | | | | |items| |] eqn:Hvalue;
      try (split; [discriminate|intros (? & ? & Habs & _); discriminate Habs]).
    change (matchesOperator "in" attrValue (VSlice items))
      with (existsb (fun item => String.eqb (Sprintv attrValue) (Sprintv item)) items).
    rewrite existsb_exists. split.
    + intros (item & Hin & Hsame). apply String.eqb_eq in Hsame.
      exists items, item. auto.
    + intros (items' & item & Hitems & Hin & Hsame). injection Hitems as <-.
      exists item. split; [exact Hin|]. apply String.eqb_eq. auto.
  - intros n -> Hvalue. apply Heq. rewrite Hvalue. reflexivity.
Qed.

End OperatorProperties.

(** ** Evaluation: where a result comes from *)

Lemma isInRollout_nonpositive userID flagKey percentage :
  percentage <= 0 -> isInRollout userID flagKey percentage = false.
Proof.
  pose proof (hashString_range (rolloutKey userID flagKey)) as Hr.
  intros Hp. unfold isInRollout.
  destruct (Z.eqb_spec percentage 0); [reflexivity|].
  destruct (Z.leb_spec 100 percentage); [lia|]. apply Z.ltb_ge. lia.
Qed.

Lemma isInRollout_full userID flagKey percentage :
  100 <= percentage -> isInRollout userID flagKey percentage = true.
Proof.
  intros Hp. unfold isInRollout.
  destruct (Z.eqb_spec percentage 0); [lia|].
  destruct (Z.leb_spec 100 percentage); [reflexivity|lia].
Qed.

Lemma isInRollout_partial userID flagKey percentage :
  0 < percentage < 100 ->
  isInRollout userID flagKey percentage
  = (hashString (rolloutKey userID flagKey) <? percentage).
Proof.
  intros Hp. unfold isInRollout.
  destruct (Z.eqb_spec percentage 0); [lia|].
  destruct (Z.leb_spec 100 percentage); [lia|reflexivity].
Qed.

Section EvaluationProperties.
Context `{FloatText}.

Lemma evaluateFlag_find config context :
  evaluateFlag config context =
  if negb (Enabled config) then DefaultValue config
  else
    match List.find (qualifies config context) (Rules config) with
    | Some rule => ruleOutcome config rule
    | None =>
        if (0 <? RolloutPercentage config)
           && negb (String.eqb (contextUserID context) EmptyString) then
          if isInRollout (contextUserID context) (Key config) (RolloutPercentage config)
          then DefaultValue config
          else getOffValue (Type_ config)
        else DefaultValue config
    end.
Proof.
  unfold evaluateFlag. rewrite rulesLoop_find.
  destruct (List.find _ _); reflexivity.
Qed.

Lemma find_none_Forall {A} (f : A -> bool) (l : list A) :
  Forall (fun x => f x = false) l -> List.find f l = None.
Proof.
  induction 1 as [|x l Hx _ IH]; [reflexivity|].
  cbn [List.find]. rewrite Hx. exact IH.
Qed.

Lemma qualifies_withRollout config percentage context rule :
  qualifies (withRollout config percentage) context rule = qualifies config context rule.
Proof. reflexivity. Qed.

Lemma find_ext {A} (f g : A -> bool) (l : list A) :
  (forall x, f x = g x) -> List.find f l = List.find g l.
Proof.
  intros Hfg. induction l as [|x l IH]; [reflexivity|].
  cbn [List.find]. rewrite Hfg, IH. reflexivity.
Qed.

(** X7. Whatever the configuration and the context, evaluateFlag returns
    the flag's defaultValue, the off value of the flag's type, or the
    non-nil rollValue of a rule of the flag that matches the context: it
    never makes up a value. *)
Theorem evaluateFlag_result_origin (config : FlagConfig) (context : gmap string Any) :
  evaluateFlag config context = DefaultValue config
  \/ evaluateFlag config context = getOffValue (Type_ config)
  \/ exists rule,
       In rule (Rules config)
       /\ matchesRule rule context = true
       /\ RollValue rule <> VNil
       /\ evaluateFlag config context = RollValue rule.
Proof.
  rewrite evaluateFlag_find.
  destruct (Enabled config); cbn [negb]; [|left; reflexivity].
  destruct (List.find (qualifies config context) (Rules config)) as [rule|] eqn:Hfind.
  - apply List.find_some in Hfind as [Hin Hq].
    unfold qualifies in Hq. apply andb_true_iff in Hq as [Hm _].
    unfold ruleOutcome. destruct (RollValue rule) eqn:Hroll;
      [left; reflexivity| right; right; exists rule; rewrite Hroll;
                          repeat split; (assumption || discriminate || reflexivity) ..].
  - destruct (_ && _); [|left; reflexivity].
    destruct (isInRollout _ _ _); [left|right; left]; reflexivity.
Qed.

(** X8. For a context without a user id (no string under [user_id] or
    [userId], or an empty one) the rollout percentage of the flag has no
    effect: an enabled flag evaluates to the outcome of its first
    qualifying rule, else to its defaultValue, never to the off value. *)
Theorem anonymous_context_ignores_rollout (config : FlagConfig)
    (context : gmap string Any) :
  contextUserID context = EmptyString ->
  (forall percentage,
     evaluateFlag (withRollout config percentage) context = evaluateFlag config context)
  /\ (Enabled config = true ->
      evaluateFlag config context =
      match List.find (qualifies config context) (Rules config) with
      | Some rule => ruleOutcome config rule
      | None => DefaultValue config
      end).
Proof.
  intros Hanon.
  assert (Hconfig : forall c,
             evaluateFlag c context =
             if negb (Enabled c) then DefaultValue c
             else match List.find (qualifies c context) (Rules c) with
                  | Some rule => ruleOutcome c rule
                  | None => DefaultValue c
                  end).
  { intros c. rewrite evaluateFlag_find, Hanon. cbn [String.eqb negb].
    rewrite andb_false_r. reflexivity. }
  split.
  - intros percentage. rewrite !Hconfig. reflexivity.
  - intros Hon. rewrite Hconfig, Hon. reflexivity.
Qed.

(** X9. An enabled flag none of whose rules qualifies, evaluated for a
    non-empty user id: with a rollout percentage of 0 or less, or of 100 or
    more, every user gets the defaultValue; with a percentage strictly
    between, the users whose bucket is below the percentage get the
    defaultValue and the others the off value of the flag's type. So a 0%
    rollout gives everyone the defaultValue, not the off value. *)
Theorem rollout_decides_without_rules (config : FlagConfig) (context : gmap string Any) :
  Enabled config = true ->
  Forall (fun rule => qualifies config context rule = false) (Rules config) ->
  contextUserID context <> EmptyString ->
  (RolloutPercentage config <= 0 \/ 100 <= RolloutPercentage config ->
   evaluateFlag config context = DefaultValue config)
  /\ (0 < RolloutPercentage config < 100 ->
      evaluateFlag config context =
      if hashString (rolloutKey (contextUserID context) (Key config))
         <? RolloutPercentage config
      then DefaultValue config
      else getOffValue (Type_ config)).
Proof.
  intros Hon Hnone Hid. rewrite evaluateFlag_find, Hon, (find_none_Forall _ _ Hnone).
  cbn [negb]. apply String.eqb_neq in Hid. rewrite Hid. cbn [negb].
  rewrite andb_true_r. split.
  - intros [Hlow|Hhigh].
    + destruct (Z.ltb_spec 0 (RolloutPercentage config)); [lia|reflexivity].
    + destruct (Z.ltb_spec 0 (RolloutPercentage config)); [|reflexivity].
      rewrite isInRollout_full by assumption. reflexivity.
  - intros Hmid. destruct (Z.ltb_spec 0 (RolloutPercentage config)); [|lia].
    rewrite isInRollout_partial by assumption. reflexivity.
Qed.

(** The loop does not tell apart two rules that qualify alike and have the
    same outcome, and it passes over a rule that does not qualify. *)
Lemma rulesLoop_replace config context pre rule rule' post :
  qualifies config context rule = qualifies config context rule' ->
  ruleOutcome config rule = ruleOutcome config rule' ->
  rulesLoop config context (contextUserID context) (pre ++ rule :: post) =
  rulesLoop config context (contextUserID context) (pre ++ rule' :: post).
Proof.
  intros Hq Ho. induction pre as [|r pre IH]; cbn [app].
  - rewrite !rulesLoop_cons, Hq, Ho. reflexivity.
  - rewrite !rulesLoop_cons, IH. reflexivity.
Qed.

Lemma rulesLoop_remove config context pre rule post :
  qualifies config context rule = false ->
  rulesLoop config context (contextUserID context) (pre ++ rule :: post) =
  rulesLoop config context (contextUserID context) (pre ++ post).
Proof.
  intros Hq. induction pre as [|r pre IH]; cbn [app].
  - rewrite rulesLoop_cons, Hq. reflexivity.
  - rewrite !rulesLoop_cons, IH. reflexivity.
Qed.

(** X10. A rule with a percentage of 100 or more is evaluated exactly like
    the same rule without a percentage: it needs no user id. *)
Theorem full_percentage_rule_is_unconditional (config : FlagConfig)
    (context : gmap string Any) (pre : list Rule) (rule : Rule) (post : list Rule)
    (percentage : Z) :
  Percentage rule = Some percentage ->
  100 <= percentage ->
  evaluateFlag (withRules config (pre ++ rule :: post)%list) context
  = evaluateFlag (withRules config (pre ++ withPercentage rule None :: post)%list) context.
Proof.
  intros Hp Hfull. rewrite !evaluateFlag_withRules.
  rewrite (rulesLoop_replace config context pre rule (withPercentage rule None) post);
    [reflexivity| |reflexivity].
  unfold qualifies. cbn [withPercentage Percentage]. rewrite Hp.
  destruct (Z.ltb_spec percentage 100); [lia|].
  destruct rule; reflexivity.
Qed.

(** X11. A rule with a percentage of 0 or less never qualifies, for any
    user: the flag evaluates as if the rule were not in the list. *)
Theorem zero_percentage_rule_is_dead (config : FlagConfig)
    (context : gmap string Any) (pre : list Rule) (rule : Rule) (post : list Rule)
    (percentage : Z) :
  Percentage rule = Some percentage ->
  percentage <= 0 ->
  qualifies config context rule = false
  /\ evaluateFlag (withRules config (pre ++ rule :: post)%list) context
     = evaluateFlag (withRules config (pre ++ post)%list) context.
Proof.
  intros Hp Hzero.
  assert (Hq : qualifies config context rule = false).
  { unfold qualifies. rewrite Hp.
    destruct (Z.ltb_spec percentage 100); [|lia].
    rewrite isInRollout_nonpositive by assumption.
    rewrite andb_false_r. apply andb_false_r. }
  split; [exact Hq|].
  rewrite !evaluateFlag_withRules, (rulesLoop_remove _ _ _ _ _ Hq). reflexivity.
Qed.

(** X12. A [user_id] that is not a string (a number, say) is not converted:
    the context is read as if it had no [user_id], and when [userId] is no
    string either the context is anonymous and the flag's rollout
    percentage has no effect. *)
Theorem non_string_user_id_is_ignored (config : FlagConfig)
    (context : gmap string Any) (id : Any) :
  context !! "user_id" = Some id ->
  hasType STRING id = false ->
  contextUserID context = contextUserID (delete "user_id" context)
  /\ (hasType STRING (default VNil (context !! "userId")) = false ->
      contextUserID context = EmptyString
      /\ forall percentage,
           evaluateFlag (withRollout config percentage) context
           = evaluateFlag config context).
Proof.
  intros Hid Hother.
  assert (Hfallback : contextUserID context =
                      match context !! "userId" with
                      | Some (VString s) => s
                      | _ => EmptyString
                      end).
  { unfold contextUserID. rewrite Hid. destruct id; try reflexivity.
    discriminate Hother. }
  split.
  - rewrite Hfallback. unfold contextUserID.
    rewrite lookup_delete_eq, lookup_delete_ne by discriminate. reflexivity.
  - intros Hcamel.
    assert (Hanon : contextUserID context = EmptyString).
    { rewrite Hfallback. destruct (context !! "userId") as [[]|]; try reflexivity.
      discriminate Hcamel. }
    split; [exact Hanon|].
    intros percentage. rewrite !evaluateFlag_find, Hanon.
    cbn [String.eqb negb withRollout Enabled DefaultValue Rules].
    rewrite !andb_false_r.
    rewrite (find_ext _ _ _ (qualifies_withRollout config percentage context)).
    reflexivity.
Qed.

End EvaluationProperties.

(** ** The accessors and the catalog *)

Section CatalogProperties.
Context `{FloatText}.

(** X13. For a user outside the rollout of an enabled flag with no
    qualifying rule, the typed accessors return the off value of the flag's
    type, not the caller's default: false, the empty string, 0. GetJSONFlag,
    on a flag whose type is none of these, returns the caller's default,
    since the off value is nil. *)
Theorem accessors_outside_rollout (c : Client) (key : string) (config : FlagConfig)
    (context : gmap string Any) :
  getFlagConfig c key = Some config ->
  Enabled config = true ->
  Forall (fun rule => qualifies config context rule = false) (Rules config) ->
  contextUserID context <> EmptyString ->
  0 < RolloutPercentage config ->
  isInRollout (contextUserID context) (Key config) (RolloutPercentage config) = false ->
  (Type_ config = "BOOLEAN" -> forall d, GetBooleanFlag c key d context = false)
  /\ (Type_ config = "STRING" -> forall d, GetStringFlag c key d context = EmptyString)
  /\ (Type_ config = "NUMBER" -> forall d, GetNumberFlag c key d context = 0%float)
  /\ (~ In (Type_ config) ["BOOLEAN"; "STRING"; "NUMBER"] ->
      forall d, GetJSONFlag c key d context = d).
Proof.
  intros Hkey Hon Hnone Hid Hpos Hout.
  assert (Hoff : evaluateFlag config context = getOffValue (Type_ config)).
  { rewrite evaluateFlag_find, Hon, (find_none_Forall _ _ Hnone). cbn [negb].
    apply String.eqb_neq in Hid. rewrite Hid, Hout.
    destruct (Z.ltb_spec 0 (RolloutPercentage config)); [reflexivity|lia]. }
  unfold GetBooleanFlag, GetStringFlag, GetNumberFlag, GetJSONFlag.
  rewrite Hkey, Hoff. repeat split.
  - intros -> d. reflexivity.
  - intros -> d. reflexivity.
  - intros -> d. reflexivity.
  - intros Htype d. unfold getOffValue.
    repeat match goal with
           | |- context [String.eqb (Type_ config) ?name] =>
               destruct (String.eqb_spec (Type_ config) name) as [Heq|_];
               [try (exfalso; apply Htype; rewrite Heq; cbn; tauto)|]
           end; reflexivity.
Qed.

(** X14. Initialize on a client that is not initialized: a fully successful
    reply installs the fetched catalog and marks the client initialized;
    any other reply returns an error and leaves the client as it was, not
    initialized. On an initialized client it does nothing, whatever the
    reply. *)
Theorem Initialize_outcome (c : Client) (reply : Reply) :
  (initialized c = true -> Initialize c reply = (c, None))
  /\ (initialized c = false ->
      (forall body Flags,
         reply = Response 200 body (Decoded Flags) ->
         Initialize c reply
         = ({| onError := onError c; flags := Flags; initialized := true |}, None))
      /\ (refreshSucceeds reply = false ->
          exists err, Initialize c reply = (c, Some err)))
  /\ ((Initialize c reply).2 = None -> initialized (Initialize c reply).1 = true).
Proof.
  unfold Initialize. split; [|split].
  - intros ->. reflexivity.
  - intros ->. split.
    + intros body Flags ->. reflexivity.
    + intros Hfail. destruct reply as [err|err|status body [err|Flags]];
        cbn [fetchFlagsInitial]; unfold StatusOK.
      * eexists. reflexivity.
      * eexists. reflexivity.
      * destruct (status =? 200); eexists; reflexivity.
      * cbn in Hfail. rewrite Hfail. eexists. reflexivity.
  - destruct (initialized c) eqn:Hinit; [intros _; exact Hinit|].
    destruct (fetchFlagsInitial c reply) as [c' [err|]]; [discriminate|].
    intros _. reflexivity.
Qed.


(** X16. Before a successful Initialize every accessor returns the caller's
    default, for every key and context: on a new client, and still after an
    Initialize that fails. *)
Theorem accessors_before_initialize (apiKey key : string)
    (config : option Setup.Config) (reply : Reply) (context : gmap string Any) :
  let fresh := (Setup.NewClient apiKey config).2 in
  forall c, c = fresh \/ (refreshSucceeds reply = false /\ c = (Initialize fresh reply).1) ->
  (forall d, GetBooleanFlag c key d context = d)
  /\ (forall d, GetStringFlag c key d context = d)
  /\ (forall d, GetNumberFlag c key d context = d)
  /\ (forall d, GetJSONFlag c key d context = d).
Proof.
  intros fresh c Hc.
  assert (Hempty : flags c = ∅).
  { destruct Hc as [->|[Hfail ->]].
    - subst fresh. destruct config; reflexivity.
    - assert (Hnew : initialized fresh = false) by (subst fresh; destruct config; reflexivity).
      assert (Hflags : flags fresh = ∅) by (subst fresh; destruct config; reflexivity).
      unfold Initialize. rewrite Hnew.
      destruct reply as [err|err|status body [err|Flags]];
        cbn [fetchFlagsInitial]; unfold StatusOK; try exact Hflags.
      + destruct (status =? 200); exact Hflags.
      + cbn in Hfail. rewrite Hfail. exact Hflags. }
  unfold GetBooleanFlag, GetStringFlag, GetNumberFlag, GetJSONFlag, getFlagConfig.
  rewrite Hempty, lookup_empty. repeat split; reflexivity.
Qed.

Lemma fetchFlags_lastFetched c reply :
  flags (fetchFlags c reply).1 = lastFetched (flags c) [reply]
  /\ onError (fetchFlags c reply).1 = onError c
  /\ initialized (fetchFlags c reply).1 = initialized c
  /\ (fetchFlags c reply).2
     = (if onError c && negb (refreshSucceeds reply)
        then List.filter isOnError (fetchFlags c reply).2 else [])
  /\ length (List.filter isOnError (fetchFlags c reply).2)
     = (if onError c && negb (refreshSucceeds reply) then 1 else 0)%nat.
Proof.
  destruct reply as [err|err|status body [err|Flags]];
    cbn [fetchFlags lastFetched refreshSucceeds]; unfold StatusOK;
    try destruct (status =? 200);
    destruct (onError c) eqn:Hcallback;
    cbn [fst snd andb negb List.filter isOnError length onError flags initialized];
    rewrite ?Hcallback; repeat split; reflexivity.
Qed.

(** X17. After any run of background refreshes the catalog is the one
    delivered by the last fully successful reply, or the starting catalog
    when no reply succeeded; the error callback, when configured, has been
    called once for each reply that failed, and nothing else was called. *)
Theorem polling_keeps_last_fetched (c : Client) (replies : list Reply) :
  flags (polling c replies).1 = lastFetched (flags c) replies
  /\ onError (polling c replies).1 = onError c
  /\ initialized (polling c replies).1 = initialized c
  /\ Forall (fun e => isOnError e = true) (polling c replies).2
  /\ length (polling c replies).2
     = (if onError c
        then length (List.filter (fun reply => negb (refreshSucceeds reply)) replies)
        else 0)%nat.
Proof.
  revert c. induction replies as [|reply rest IH]; intros c.
  - cbn. destruct (onError c); repeat split; constructor.
  - cbn [polling].
    destruct (fetchFlags_lastFetched c reply) as (Hflags & Herr & Hinit & Hev & Hlen).
    destruct (fetchFlags c reply) as [c1 events1]. cbn [fst snd] in *.
    destruct (IH c1) as (IHflags & IHerr & IHinit & IHev & IHlen).
    destruct (polling c1 rest) as [c2 events2]. cbn [fst snd] in *.
    rewrite IHflags, IHerr, IHinit, Hflags, Herr, Hinit.
    split; [|split; [reflexivity|split; [reflexivity|split]]].
    + destruct reply as [err|err|status body [err|Flags]]; reflexivity.
    + apply Forall_app. split; [|exact IHev].
      rewrite Hev. destruct (_ && _); [|constructor].
      apply List.Forall_forall. intros e He. apply List.filter_In in He. apply He.
    + rewrite length_app, IHlen, Herr. cbn [List.filter].
      destruct (onError c); cbn [andb] in Hev, Hlen.
      * destruct (refreshSucceeds reply); cbn [negb] in Hev, Hlen |- *.
        -- rewrite Hev. reflexivity.
        -- rewrite Hev, Hlen. reflexivity.
      * rewrite Hev. reflexivity.
Qed.

(** X18. During an outage of any length the accessors keep answering from
    the last catalog: after a run of refreshes that all fail, every accessor
    returns what it returned before the run. *)
Theorem outage_keeps_answers (c : Client) (replies : list Reply) (key : string)
    (context : gmap string Any) :
  Forall (fun reply => refreshSucceeds reply = false) replies ->
  (polling c replies).1 = c
  /\ (forall d, GetBooleanFlag (polling c replies).1 key d context
                = GetBooleanFlag c key d context)
  /\ (forall d, GetStringFlag (polling c replies).1 key d context
                = GetStringFlag c key d context)
  /\ (forall d, GetNumberFlag (polling c replies).1 key d context
                = GetNumberFlag c key d context)
  /\ (forall d, GetJSONFlag (polling c replies).1 key d context
                = GetJSONFlag c key d context).
Proof.
  intros Hfail.
  assert (Hsame : (polling c replies).1 = c).
  { induction Hfail as [|reply rest Hreply _ IH]; [reflexivity|].
    cbn [polling].
    destruct (failing_reply reply Hreply) as [err Herr].
    rewrite (RefreshFails_fetchFlags c reply err Herr).
    destruct (polling c rest) as [c2 events2]. exact IH. }
  rewrite Hsame. repeat split; reflexivity.
Qed.

End CatalogProperties.

(** ** Staleness: status, freshness and the alarm *)

(** X19. GetStatus and IsStale agree: the status is "stale" exactly when
    IsStale holds and "fresh" otherwise; it carries the time GetLastUpdatedAt
    returns and the age since then. A client that never fetched reports
    "fresh" with age 0. *)
Theorem GetStatus_agrees_with_IsStale (c : Staleness.Client) (now : Z) :
  StalenessSetup.Status (StalenessSetup.GetStatus c now)
  = (if Staleness.IsStale c now then "stale" else "fresh")
  /\ StalenessSetup.LastUpdatedAt (StalenessSetup.GetStatus c now)
     = StalenessSetup.GetLastUpdatedAt c
  /\ StalenessSetup.Age (StalenessSetup.GetStatus c now)
     = match StalenessSetup.GetLastUpdatedAt c with
       | Some updated => now - updated
       | None => 0
       end
  /\ (Staleness.IsStale c now = true ->
      exists updated,
        StalenessSetup.GetLastUpdatedAt c = Some updated
        /\ Staleness.maxStaleAge c < StalenessSetup.Age (StalenessSetup.GetStatus c now)).
Proof.
  unfold StalenessSetup.GetStatus, Staleness.IsStale, StalenessSetup.GetLastUpdatedAt.
  destruct (Staleness.lastUpdatedAt c) as [updated|]; cbn.
  - repeat split. intros Hstale. exists updated. split; [reflexivity|].
    apply Z.ltb_lt, Hstale.
  - repeat split. discriminate.
Qed.

(** X20. A fully successful refresh at time [now] makes the catalog fresh:
    afterwards the client is stale at a later time exactly when more than
    the maximum age has passed since [now], whatever its state was before;
    in particular it is not stale at [now] itself. *)
Theorem successful_refresh_makes_fresh (c : Staleness.Client) (now : Z) (reply : Reply) :
  refreshSucceeds reply = true ->
  0 <= Staleness.maxStaleAge c ->
  Staleness.IsStale (Staleness.fetchFlags c now reply).1 now = false
  /\ StalenessSetup.GetLastUpdatedAt (Staleness.fetchFlags c now reply).1 = Some now
  /\ forall later,
       Staleness.IsStale (Staleness.fetchFlags c now reply).1 later = true
       <-> Staleness.maxStaleAge c < later - now.
Proof.
  intros Hok Hage.
  destruct (reply_cases reply) as [(err & _ & Hno)|(body & Flags & -> & _)];
    [congruence|].
  cbn. repeat split.
  - apply Z.ltb_ge. lia.
  - apply Z.ltb_lt.
  - apply Z.ltb_lt.
Qed.

(** A failed refresh on a client whose alarm has fired, or whose catalog is
    not stale, changes nothing and calls no stale callback. *)
Lemma quiet_tick c now reply :
  refreshSucceeds reply = false ->
  Staleness.staleFired c = true \/ Staleness.IsStale c now = false ->
  (Staleness.fetchFlags c now reply).1 = c
  /\ staleCalls (Staleness.fetchFlags c now reply).2 = [].
Proof.
  intros Hfail Hquiet.
  destruct (failing_fetch_stale c now reply Hfail) as [-> ->].
  destruct (checkStaleness_cases c now)
    as [[-> _]|(updated & Hupdated & Hold & Hoff & _ & _)].
  - split; reflexivity.
  - destruct Hquiet as [Hfired|Hfresh]; [congruence|].
    unfold Staleness.IsStale in Hfresh. rewrite Hupdated in Hfresh.
    apply Z.ltb_ge in Hfresh. lia.
Qed.

Lemma quiet_polling c episode :
  Forall (fun tick : Z * Reply =>
            refreshSucceeds tick.2 = false
            /\ (Staleness.staleFired c = true \/ Staleness.IsStale c tick.1 = false))
         episode ->
  (Staleness.polling c episode).1 = c
  /\ staleCalls (Staleness.polling c episode).2 = [].
Proof.
  induction 1 as [|[now reply] episode [Hfail Hquiet] _ [IHc IHcalls]]; [split; reflexivity|].
  cbn [Staleness.polling]. cbn [fst snd] in Hfail, Hquiet.
  destruct (quiet_tick c now reply Hfail Hquiet) as [Hc Hcalls].
  destruct (Staleness.fetchFlags c now reply) as [c1 events1]. cbn [fst snd] in Hc, Hcalls.
  subst c1.
  destruct (Staleness.polling c episode) as [c2 events2]. cbn [fst snd] in *.
  split; [exact IHc|]. rewrite staleCalls_app, Hcalls, IHcalls. reflexivity.
Qed.

(** X21. The alarm fires at the first failed refresh that finds the catalog
    stale. Over a run of failed refreshes on a client whose alarm has not
    fired, if the refreshes before some tick find the catalog within the
    maximum age and that tick finds it older, then the stale callback, when
    configured, is called exactly once in the run, at that tick, with the
    time of the last update and the age at that tick; the catalog and the
    time of the last update are those from before the run. *)
Theorem stale_alarm_at_first_stale_refresh (c : Staleness.Client) (updated : Z)
    (quiet : list (Z * Reply)) (now : Z) (reply : Reply) (rest : list (Z * Reply)) :
  Staleness.lastUpdatedAt c = Some updated ->
  Staleness.staleFired c = false ->
  Forall (fun tick : Z * Reply => refreshSucceeds tick.2 = false)
         (quiet ++ (now, reply) :: rest) ->
  Forall (fun tick : Z * Reply => tick.1 - updated <= Staleness.maxStaleAge c) quiet ->
  Staleness.maxStaleAge c < now - updated ->
  staleCalls (Staleness.polling c (quiet ++ (now, reply) :: rest)).2
  = (if Staleness.onStale c then [OnStale updated (now - updated)] else [])
  /\ Staleness.staleFired (Staleness.polling c (quiet ++ (now, reply) :: rest)).1 = true
  /\ Staleness.flags (Staleness.polling c (quiet ++ (now, reply) :: rest)).1
     = Staleness.flags c
  /\ Staleness.lastUpdatedAt (Staleness.polling c (quiet ++ (now, reply) :: rest)).1
     = Some updated.
Proof.
  intros Hupdated Hoff Hfail Hquiet Hold.
  apply Forall_app in Hfail as [Hfail_quiet Hfail_rest].
  apply Forall_cons_1 in Hfail_rest as [Hfail_now Hfail_rest]. cbn [snd] in Hfail_now.
  assert (Hq : (Staleness.polling c quiet).1 = c
               /\ staleCalls (Staleness.polling c quiet).2 = []).
  { apply quiet_polling. rewrite Forall_forall in *. intros tick Hin.
    split; [apply Hfail_quiet, Hin|]. right.
    unfold Staleness.IsStale. rewrite Hupdated. apply Z.ltb_ge. apply Hquiet, Hin. }
  destruct Hq as [Hqc Hqcalls].
  rewrite polling_app. cbn [fst snd]. rewrite Hqc, staleCalls_app, Hqcalls. cbn [app].
  cbn [Staleness.polling].
  destruct (failing_fetch_stale c now reply Hfail_now) as [Hc1 Hev1].
  destruct (Staleness.fetchFlags c now reply) as [c1 events1]. cbn [fst snd] in Hc1, Hev1.
  assert (Hfire : Staleness.checkStaleness c now
                  = ({| Staleness.onError := Staleness.onError c;
                        Staleness.onStale := Staleness.onStale c;
                        Staleness.maxStaleAge := Staleness.maxStaleAge c;
                        Staleness.flags := Staleness.flags c;
                        Staleness.initialized := Staleness.initialized c;
                        Staleness.lastUpdatedAt := Staleness.lastUpdatedAt c;
                        Staleness.staleFired := true |},
                     if Staleness.onStale c then [OnStale updated (now - updated)] else [])).
  { unfold Staleness.checkStaleness. rewrite Hupdated, Hoff.
    destruct (Z.ltb_spec (Staleness.maxStaleAge c) (now - updated)); [|lia].
    reflexivity. }
  rewrite Hfire in Hc1, Hev1. cbn [fst snd] in Hc1, Hev1.
  assert (Hrest : (Staleness.polling c1 rest).1 = c1
                  /\ staleCalls (Staleness.polling c1 rest).2 = []).
  { apply quiet_polling. rewrite Forall_forall in *. intros tick Hin.
    split; [apply Hfail_rest, Hin|]. left. subst c1. reflexivity. }
  destruct Hrest as [Hrc Hrcalls].
  destruct (Staleness.polling c1 rest) as [c2 events2]. cbn [fst snd] in *.
  rewrite staleCalls_app, Hev1, Hrcalls, app_nil_r. subst c2 c1.
  cbn [Staleness.staleFired Staleness.flags Staleness.lastUpdatedAt].
  repeat split; try assumption.
  destruct (Staleness.onStale c); reflexivity.
Qed.

(** X22. A client that has never fetched a catalog is never stale and never
    raises the alarm: failed refreshes leave it as it is and call no stale
    callback. *)
Theorem never_fetched_is_never_stale (c : Staleness.Client) (episode : list (Z * Reply)) :
  Staleness.lastUpdatedAt c = None ->
  Forall (fun tick : Z * Reply => refreshSucceeds tick.2 = false) episode ->
  (forall now, Staleness.IsStale c now = false)
  /\ (Staleness.polling c episode).1 = c
  /\ staleCalls (Staleness.polling c episode).2 = [].
Proof.
  intros Hnever Hfail.
  assert (Hfresh : forall now, Staleness.IsStale c now = false).
  { intros now. unfold Staleness.IsStale. rewrite Hnever. reflexivity. }
  split; [exact Hfresh|].
  apply quiet_polling. rewrite Forall_forall in *. intros tick Hin.
  split; [apply Hfail, Hin|]. right. apply Hfresh.
Qed.

(** X23. A new client with staleness tracking has a positive maximum age
    (5 minutes unless the options give a positive one), no fetch time and an
    unfired alarm; once Initialize succeeds at time [now] it is initialized,
    holds the fetched catalog, and is stale at a later time exactly when
    more than the maximum age has passed since [now]. *)
Theorem new_client_starts_fresh (key : string) (config : option StalenessSetup.Config)
    (now : Z) (body : string) (Flags : gmap string FlagConfig) :
  let fresh := (StalenessSetup.NewClient key config).2 in
  let ready := (StalenessSetup.Initialize fresh now (Response 200 body (Decoded Flags))).1 in
  0 < Staleness.maxStaleAge fresh
  /\ (forall options, config = Some options -> 0 < StalenessSetup.MaxStaleAge options ->
        Staleness.maxStaleAge fresh = StalenessSetup.MaxStaleAge options)
  /\ (config = None -> Staleness.maxStaleAge fresh = 300 * Second)
  /\ StalenessSetup.GetLastUpdatedAt fresh = None
  /\ Staleness.staleFired fresh = false
  /\ Staleness.initialized ready = true
  /\ Staleness.flags ready = Flags
  /\ Staleness.maxStaleAge ready = Staleness.maxStaleAge fresh
  /\ forall later,
       Staleness.IsStale ready later = true <-> Staleness.maxStaleAge fresh < later - now.
Proof.
  destruct config as [options|]; cbn zeta; cbn.
  - repeat split; try discriminate;
      try (intros Hage; apply Z.ltb_lt; exact Hage).
    + destruct (Z.ltb_spec 0 (StalenessSetup.MaxStaleAge options)); [assumption|].
      unfold DefaultMaxStaleAge, Minute, Second. lia.
    + intros options' Hsome Hpos. injection Hsome as <-.
      destruct (Z.ltb_spec 0 (StalenessSetup.MaxStaleAge options)); [reflexivity|lia].
  - repeat split; try discriminate;
      try (intros Hage; apply Z.ltb_lt; exact Hage).
Qed.

(** ** The further properties on sample inputs *)

Lemma unknown_operator_never_matches_witness :
  matchesRule (H := IntegerText.text) MoreSamples.shouting Samples.proUser = false.
Proof.
  apply (unknown_operator_never_matches (H := IntegerText.text)
           MoreSamples.shouting Samples.proUser).
  intros Hin. cbn in Hin.
  repeat (destruct Hin as [Hin|Hin]; [discriminate Hin|]). exact Hin.
Defined.

Lemma negated_operators_witness :
  matchesRule (H := IntegerText.text) (withOperator Samples.pro "not_equals") Samples.proUser
  = negb (matchesRule (H := IntegerText.text) (withOperator Samples.pro "equals")
            Samples.proUser).
Proof.
  apply (proj1 (negated_operators (H := IntegerText.text) Samples.pro Samples.proUser)
           (VString "pro")).
  reflexivity.
Defined.

Lemma contains_is_substring_witness :
  matchesRule (H := IntegerText.text) (withOperator MoreSamples.company "contains")
    MoreSamples.employee = true
  <-> exists pre post, "user@company.com" = pre +:+ "@company.com" +:+ post.
Proof.
  apply (contains_is_substring (H := IntegerText.text) MoreSamples.company
           MoreSamples.employee "user@company.com" "@company.com").
  - reflexivity.
  - reflexivity.
Defined.

Lemma contains_needs_strings_witness :
  matchesRule (H := IntegerText.text) (withOperator MoreSamples.adult "contains")
    MoreSamples.eighteen = false
  /\ matchesRule (H := IntegerText.text) (withOperator MoreSamples.adult "not_contains")
       MoreSamples.eighteen = false.
Proof.
  apply (contains_needs_strings (H := IntegerText.text) MoreSamples.adult
           MoreSamples.eighteen (VInt 18)).
  - reflexivity.
  - reflexivity.
Defined.

Lemma in_compares_text_witness :
  matchesRule (H := IntegerText.text) (withOperator MoreSamples.adult "equals")
    MoreSamples.eighteen = true.
Proof.
  apply (proj2 (proj2 (in_compares_text (H := IntegerText.text) MoreSamples.adult
                         MoreSamples.eighteen (VInt 18) eq_refl)) 18).
  - reflexivity.
  - reflexivity.
Defined.

Lemma anonymous_context_ignores_rollout_witness :
  evaluateFlag (H := IntegerText.text)
    (withRollout (MoreSamples.rolledOut "BOOLEAN" (VBool true) 10) 50) Samples.proUser
  = evaluateFlag (H := IntegerText.text)
      (MoreSamples.rolledOut "BOOLEAN" (VBool true) 10) Samples.proUser.
Proof.
  apply (proj1 (anonymous_context_ignores_rollout (H := IntegerText.text)
                  (MoreSamples.rolledOut "BOOLEAN" (VBool true) 10) Samples.proUser
                  eq_refl)).
Defined.

Lemma rollout_decides_without_rules_witness :
  evaluateFlag (H := IntegerText.text)
    (MoreSamples.rolledOut "BOOLEAN" (VBool true) 0) MoreSamples.user123 = VBool true
  /\ evaluateFlag (H := IntegerText.text)
       (MoreSamples.rolledOut "BOOLEAN" (VBool true) 10) MoreSamples.user123 = VBool false.
Proof.
  split.
  - apply (proj1 (rollout_decides_without_rules (H := IntegerText.text)
                    (MoreSamples.rolledOut "BOOLEAN" (VBool true) 0) MoreSamples.user123
                    eq_refl (List.Forall_nil _) ltac:(discriminate))).
    left. cbn. lia.
  - rewrite (proj2 (rollout_decides_without_rules (H := IntegerText.text)
                      (MoreSamples.rolledOut "BOOLEAN" (VBool true) 10) MoreSamples.user123
                      eq_refl (List.Forall_nil _) ltac:(discriminate))).
    + vm_compute. reflexivity.
    + cbn. lia.
Defined.

Lemma full_percentage_rule_is_unconditional_witness :
  evaluateFlag (H := IntegerText.text)
    (withRules (Samples.flag true (VString "default") []) [MoreSamples.fullPro])
    Samples.proUser
  = evaluateFlag (H := IntegerText.text)
      (withRules (Samples.flag true (VString "default") [])
         [withPercentage MoreSamples.fullPro None])
      Samples.proUser.
Proof.
  apply (full_percentage_rule_is_unconditional (H := IntegerText.text)
           (Samples.flag true (VString "default") []) Samples.proUser
           [] MoreSamples.fullPro [] 100).
  - reflexivity.
  - lia.
Defined.

Lemma zero_percentage_rule_is_dead_witness :
  evaluateFlag (H := IntegerText.text)
    (withRules (Samples.flag true (VString "default") [])
       [MoreSamples.nonePro; Samples.anyPlan])
    (<[ "user_id" := VString "user-123" ]> Samples.proUser)
  = evaluateFlag (H := IntegerText.text)
      (withRules (Samples.flag true (VString "default") []) [Samples.anyPlan])
      (<[ "user_id" := VString "user-123" ]> Samples.proUser).
Proof.
  apply (zero_percentage_rule_is_dead (H := IntegerText.text)
           (Samples.flag true (VString "default") [])
           (<[ "user_id" := VString "user-123" ]> Samples.proUser)
           [] MoreSamples.nonePro [Samples.anyPlan] 0).
  - reflexivity.
  - lia.
Defined.

Lemma non_string_user_id_is_ignored_witness :
  contextUserID MoreSamples.numbered = EmptyString
  /\ forall percentage,
       evaluateFlag (H := IntegerText.text)
         (withRollout (MoreSamples.rolledOut "BOOLEAN" (VBool true) 10) percentage)
         MoreSamples.numbered
       = evaluateFlag (H := IntegerText.text)
           (MoreSamples.rolledOut "BOOLEAN" (VBool true) 10) MoreSamples.numbered.
Proof.
  apply (non_string_user_id_is_ignored (H := IntegerText.text)
           (MoreSamples.rolledOut "BOOLEAN" (VBool true) 10) MoreSamples.numbered (VInt 42)).
  - reflexivity.
  - reflexivity.
  - reflexivity.
Defined.

Lemma accessors_outside_rollout_witness :
  GetBooleanFlag (H := IntegerText.text) MoreSamples.tenPercent "my-flag" true
    MoreSamples.user123 = false.
Proof.
  apply (proj1 (accessors_outside_rollout (H := IntegerText.text)
                  MoreSamples.tenPercent "my-flag"
                  (MoreSamples.rolledOut "BOOLEAN" (VBool true) 10) MoreSamples.user123
                  eq_refl eq_refl (List.Forall_nil _) ltac:(discriminate)
                  ltac:(cbn; lia) ltac:(vm_compute; reflexivity))).
  reflexivity.
Defined.

Lemma Initialize_outcome_witness :
  Initialize (Setup.NewClient "tt_live_key" None).2 MoreSamples.unavailable
  = ((Setup.NewClient "tt_live_key" None).2, Some "API returned status 503: unavailable").
Proof.
  destruct (proj2 (proj1 (proj2 (Initialize_outcome (Setup.NewClient "tt_live_key" None).2
                                   MoreSamples.unavailable)) eq_refl) eq_refl)
    as [err Herr].
  rewrite Herr. vm_compute in Herr. injection Herr as <-. reflexivity.
Defined.

Lemma accessors_before_initialize_witness :
  GetStringFlag (H := IntegerText.text)
    (Initialize (Setup.NewClient "tt_live_key" None).2 MoreSamples.unavailable).1
    "checkout-flow" "control" MoreSamples.user123
  = "control".
Proof.
  apply (accessors_before_initialize (H := IntegerText.text) "tt_live_key" "checkout-flow"
           None MoreSamples.unavailable MoreSamples.user123).
  right. split; reflexivity.
Defined.

Lemma outage_keeps_answers_witness :
  GetBooleanFlag (H := IntegerText.text)
    (polling Samples.booleanCatalog [Samples.outage; MoreSamples.unavailable]).1
    "feature" false ∅
  = GetBooleanFlag (H := IntegerText.text) Samples.booleanCatalog "feature" false ∅.
Proof.
  apply (outage_keeps_answers (H := IntegerText.text) Samples.booleanCatalog
           [Samples.outage; MoreSamples.unavailable] "feature" ∅).
  repeat constructor.
Defined.

Lemma successful_refresh_makes_fresh_witness :
  Staleness.IsStale (Staleness.fetchFlags (Samples.staleClient true) 1000 Samples.recovery).1
    1000 = false.
Proof.
  apply (successful_refresh_makes_fresh (Samples.staleClient true) 1000 Samples.recovery).
  - reflexivity.
  - cbn. lia.
Defined.

Lemma stale_alarm_at_first_stale_refresh_witness :
  staleCalls (Staleness.polling (Samples.staleClient false) MoreSamples.longOutage).2
  = [OnStale 0 400].
Proof.
  apply (stale_alarm_at_first_stale_refresh (Samples.staleClient false) 0
           [(100, Samples.outage)] 400 Samples.outage [(500, Samples.outage)]).
  - reflexivity.
  - reflexivity.
  - repeat constructor.
  - repeat constructor. cbn. lia.
  - cbn. lia.
Defined.

Lemma never_fetched_is_never_stale_witness :
  staleCalls
    (Staleness.polling (StalenessSetup.NewClient "tt_live_key" None).2
       MoreSamples.longOutage).2
  = [].
Proof.
  apply (never_fetched_is_never_stale (StalenessSetup.NewClient "tt_live_key" None).2
           MoreSamples.longOutage).
  - reflexivity.
  - repeat constructor.
Defined.

(** ** Numeric comparison *)

Lemma SFcompare_Lt_asym x y : SFcompare x y = Some Lt -> SFcompare y x = Some Gt.
Proof.
  destruct x as [sx|sx| |sx mx ex], y as [sy|sy| |sy my ey]; cbn [SFcompare];
    try discriminate;
    try (destruct sx; (discriminate || reflexivity));
    try (destruct sy; (discriminate || reflexivity));
    try (destruct sx, sy; (discriminate || reflexivity)).
  change (Pos.compare_cont Eq mx my) with (Pos.compare mx my).
  change (Pos.compare_cont Eq my mx) with (Pos.compare my mx).
  rewrite (Z.compare_antisym ex ey), (Pos.compare_antisym mx my).
  destruct sx, sy; try discriminate; try reflexivity;
    destruct (ex ?= ey); cbn [CompOpp]; try discriminate; try reflexivity;
    destruct (Pos.compare mx my); cbn [CompOpp]; discriminate || reflexivity.
Qed.

Lemma ltb_asym x y : PrimFloat.ltb x y = true -> PrimFloat.ltb y x = false.
Proof.
  rewrite !ltb_spec. unfold SFltb. intros Hlt.
  destruct (SFcompare (Prim2SF x) (Prim2SF y)) as [[]|] eqn:Hc; try discriminate.
  rewrite (SFcompare_Lt_asym _ _ Hc). reflexivity.
Qed.

Lemma ltb_irrefl x : PrimFloat.ltb x x = false.
Proof.
  destruct (PrimFloat.ltb x x) eqn:Hlt; [|reflexivity].
  rewrite (ltb_asym x x Hlt) in Hlt. discriminate.
Qed.

Section ComparisonProperties.
Context `{FloatText}.

(** X24. [gt] and [lt] are strict and exclusive: no context satisfies both
    for the same attribute and rule value, and neither holds when the two
    convert to the same number. An attribute that is neither a number nor a
    string is compared as 0. *)
Theorem gt_and_lt_are_exclusive (rule : Rule) (context : gmap string Any) :
  matchesRule (withOperator rule "gt") context
  && matchesRule (withOperator rule "lt") context = false
  /\ (forall attrValue,
        lookupAttribute context (Attribute rule) = Some attrValue ->
        toFloat attrValue = toFloat (Value rule) ->
        matchesRule (withOperator rule "gt") context = false
        /\ matchesRule (withOperator rule "lt") context = false)
  /\ (forall attrValue,
        lookupAttribute context (Attribute rule) = Some attrValue ->
        hasType NUMBER attrValue || hasType STRING attrValue = false ->
        matchesRule (withOperator rule "gt") context
        = PrimFloat.ltb (toFloat (Value rule)) 0
        /\ matchesRule (withOperator rule "lt") context
           = PrimFloat.ltb 0 (toFloat (Value rule))).
Proof.
  rewrite !matchesRule_lookupAttribute. cbn [withOperator Attribute Operator Value].
  destruct (lookupAttribute context (Attribute rule)) as [attrValue|].
  - change (matchesOperator "gt" attrValue (Value rule))
      with (PrimFloat.ltb (toFloat (Value rule)) (toFloat attrValue)).
    change (matchesOperator "lt" attrValue (Value rule))
      with (PrimFloat.ltb (toFloat attrValue) (toFloat (Value rule))).
    split; [|split].
    + destruct (PrimFloat.ltb (toFloat (Value rule)) (toFloat attrValue)) eqn:Hgt;
        [|reflexivity].
      rewrite (ltb_asym _ _ Hgt). reflexivity.
    + intros v Hv Hsame. injection Hv as <-. rewrite Hsame.
      split; apply ltb_irrefl.
    + intros v Hv Hother. injection Hv as <-.
      destruct attrValue; try discriminate Hother; split; reflexivity.
  - split; [reflexivity|]. split; intros v Hv; discriminate Hv.
Qed.

End ComparisonProperties.

Lemma gt_and_lt_are_exclusive_witness :
  matchesRule (H := IntegerText.text) (withOperator MoreSamples.drinkingAge "gt")
    MoreSamples.flagged
  = PrimFloat.ltb 18 0.
Proof.
  apply (proj2 (proj2 (gt_and_lt_are_exclusive (H := IntegerText.text)
                         MoreSamples.drinkingAge MoreSamples.flagged)) (VBool true)).
  - reflexivity.
  - reflexivity.
Defined.

(** ** The digest reads every block *)

(** The bound on the number of blocks in [Sum256], the length of the padded
    message, is never reached: any larger bound gives the same state. *)
Lemma blocks_fuel n : forall fuel s bytes,
  (length bytes <= n)%nat -> (n <= fuel)%nat ->
  SHA256.blocks fuel s bytes = SHA256.blocks n s bytes.
Proof.
  induction n as [|n IH]; intros fuel s bytes Hlen Hfuel.
  - destruct bytes; [|cbn in Hlen; lia]. destruct fuel; reflexivity.
  - destruct fuel as [|fuel]; [lia|].
    destruct bytes as [|b bytes]; [reflexivity|].
    cbn [SHA256.blocks]. apply IH; [|lia].
    rewrite length_skipn. cbn [length] in *. lia.
Qed.

Lemma pad_length msg : (length (SHA256.pad msg) mod 64 = 0)%nat.
Proof.
  unfold SHA256.pad, SHA256.bytes_of_word. rewrite !length_app, repeat_length.
  cbn [length]. set (len := length msg).
  assert (Hz : 0 <= (55 - Z.of_nat len) mod 64 < 64) by (apply Z.mod_pos_bound; lia).
  pose proof (Z.div_mod (55 - Z.of_nat len) 64 ltac:(lia)) as Hd.
  apply Nat2Z.inj. rewrite Nat2Z.inj_mod.
  change (Z.of_nat 64) with 64. change (Z.of_nat 0) with 0.
  replace (Z.of_nat (len + (1 + (Z.to_nat ((55 - Z.of_nat len) mod 64) + (4 + 4)))))
    with ((1 - (55 - Z.of_nat len) / 64) * 64) by lia.
  apply Z.mod_mul. lia.
Qed.
